(** * LeCroy WaveJet 300 oscilloscope driver (python-ivi): a shallow embedding

    The development follows [ivi/lecroy/lecroyWaveJet300.py].  Python values
    are a small tagged union, Python floats are IEEE binary64 numbers
    (Rocq's primitive floats), the instance attributes of the driver are
    finite maps keyed by attribute name, and every driver method is a
    function in a state-and-exception monad whose state also records the
    traffic with the instrument.  The built-ins follow Python 3: true
    division, rounding of ties to even, dictionaries in insertion order. *)

From Stdlib Require Import ZArith List String Ascii Strings.Byte Lia Bool.
From Stdlib Require Import PrimFloat SpecFloat FloatOps FloatAxioms.
From stdpp Require Import base option gmap strings list.

Set Warnings "-inexact-float".

Local Open Scope string_scope.
Local Open Scope list_scope.
Local Open Scope Z_scope.

(** ** Python strings *)

Module PyStr.

Definition chars (s : string) : list ascii := list_ascii_of_string s.
Definition str (l : list ascii) : string := string_of_list_ascii l.

Definition ascii_eqb (a b : ascii) : bool := Ascii.eqb a b.

(** Membership of a character in a set of characters given as a string. *)
Definition char_in (c : ascii) (set : string) : bool :=
  existsb (ascii_eqb c) (chars set).

(** The characters [str.lstrip()] removes when called without argument;
    a character is a code point below 256. *)
Definition is_space (c : ascii) : bool :=
  let n := nat_of_ascii c in
  orb (Nat.eqb n 32)
    (orb (andb (Nat.leb 9 n) (Nat.leb n 13))
       (orb (andb (Nat.leb 28 n) (Nat.leb n 31))
          (orb (Nat.eqb n 133) (Nat.eqb n 160)))).

(** The white space [int()] and [float()] accept around a number. *)
Definition is_number_space (c : ascii) : bool :=
  let n := nat_of_ascii c in
  orb (Nat.eqb n 32)
    (orb (andb (Nat.leb 9 n) (Nat.leb n 13))
       (orb (Nat.eqb n 133) (Nat.eqb n 160))).

Fixpoint drop_while (p : ascii -> bool) (l : list ascii) : list ascii :=
  match l with
  | c :: r => if p c then drop_while p r else l
  | [] => []
  end.

(** [s.lstrip()] *)
Definition lstrip (s : string) : string := str (drop_while is_space (chars s)).

(** [s.rstrip(set)] *)
Definition rstrip (set : string) (s : string) : string :=
  str (rev (drop_while (fun c => char_in c set) (rev (chars s)))).

(** The text of a number without the white space around it. *)
Definition strip_number (s : string) : string :=
  str (rev (drop_while is_number_space (rev (drop_while is_number_space (chars s))))).

(** [s.endswith(c)] for a one-character suffix [c]. *)
Definition endswith (c : ascii) (s : string) : bool :=
  match rev (chars s) with
  | x :: _ => ascii_eqb x c
  | [] => false
  end.

(** [s.startswith(p)] *)
Definition startswith (p s : string) : bool := String.prefix p s.

Definition lower_char (c : ascii) : ascii :=
  let n := nat_of_ascii c in
  if andb (Nat.leb 65 n) (Nat.leb n 90) then ascii_of_nat (n + 32) else c.

(** [s.lower()] (ASCII letters). *)
Definition lower (s : string) : string := str (map lower_char (chars s)).

(** [s.split(c)] for a one-character separator: the pieces between the
    occurrences of [c]; never empty. *)
Fixpoint split_chars (c : ascii) (l : list ascii) : list (list ascii) :=
  match l with
  | [] => [[]]
  | x :: r =>
      if ascii_eqb x c then [] :: split_chars c r
      else match split_chars c r with
           | p :: ps => (x :: p) :: ps
           | [] => [[x]]
           end
  end.

Definition split (c : ascii) (s : string) : list string :=
  map str (split_chars c (chars s)).

(** [s.count(p) > 0]: [p] occurs in [s]. *)
Fixpoint contains (p : string) (s : string) : bool :=
  if String.prefix p s then true
  else match s with
       | EmptyString => false
       | String _ r => contains p r
       end.

Definition digit_of (c : ascii) : option Z :=
  let n := nat_of_ascii c in
  if andb (Nat.leb 48 n) (Nat.leb n 57) then Some (Z.of_nat (n - 48)) else None.

Definition is_digit (c : ascii) : bool :=
  match digit_of c with
  | Some _ => true
  | None => false
  end.

(** The digit separators of a numeric literal: an underscore stands
    between two digits and is dropped; anywhere else it spoils the
    literal. *)
Fixpoint drop_underscores (after_digit : bool) (l : list ascii) : option (list ascii) :=
  match l with
  | [] => Some []
  | c :: r =>
      if ascii_eqb c "_" then
        match r with
        | d :: _ => if andb after_digit (is_digit d) then drop_underscores false r else None
        | [] => None
        end
      else option_map (cons c) (drop_underscores (is_digit c) r)
  end.

(** The longest prefix of decimal digits, most significant first, and the
    rest of the input. *)
Fixpoint span_digits (l : list ascii) : list Z * list ascii :=
  match l with
  | c :: r =>
      match digit_of c with
      | Some d => let '(ds, rest) := span_digits r in (d :: ds, rest)
      | None => ([], l)
      end
  | [] => ([], [])
  end.

Definition digits_value (ds : list Z) : Z :=
  fold_left (fun acc d => 10 * acc + d) ds 0.

Definition digit_char (d : Z) : ascii := ascii_of_nat (48 + Z.to_nat d).

Fixpoint digits_of_pos (fuel : nat) (n : Z) (acc : list ascii) : list ascii :=
  match fuel with
  | O => acc
  | S fuel' =>
      if n <? 10 then digit_char n :: acc
      else digits_of_pos fuel' (n / 10) (digit_char (n mod 10) :: acc)
  end.

(** ["%d" % n] *)
Definition of_Z (n : Z) : string :=
  let body := str (digits_of_pos (S (Z.to_nat (Z.log2 (Z.abs n)))) (Z.abs n) []) in
  if n <? 0 then "-" +:+ body else body.

(** [int(s)] on a string: optional surrounding white space, an optional
    sign and decimal digits, with single underscores between digits. *)
Definition to_Z (s : string) : option Z :=
  match drop_underscores false (chars (strip_number s)) with
  | None => None
  | Some body =>
      let '(neg, rest) :=
        match body with
        | "-"%char :: r => (true, r)
        | "+"%char :: r => (false, r)
        | _ => (false, body)
        end in
      match span_digits rest with
      | (d :: ds, []) =>
          let v := digits_value (d :: ds) in Some (if neg then - v else v)
      | _ => None
      end
  end.

End PyStr.

(** ** Python floats *)

Module PyFloat.

(** The binary64 number nearest to [m * 2^e] (ties to even). *)
Definition of_scaled (m e : Z) (negzero : bool) : float :=
  SF2Prim (binary_normalize prec emax m e negzero).

(** The binary64 number nearest to the fraction [n / d], for [0 < d].
    The quotient is computed with at least three bits more than the
    format keeps, and a sticky bit records a non-zero remainder. *)
Definition of_fraction (neg : bool) (n d : Z) : float :=
  if n =? 0 then (if neg then neg_zero else zero)
  else
    let k := Z.max 0 (60 + Z.log2 d - Z.log2 n) in
    let num := n * 2 ^ k in
    let q := num / d in
    let sticky := if num mod d =? 0 then 0 else 1 in
    let m := 2 * q + sticky in
    of_scaled (if neg then - m else m) (- k - 1) neg.

(** The exact value of a finite float as [(negative, numerator,
    denominator)]. *)
Definition to_fraction (x : float) : option (bool * Z * Z) :=
  match Prim2SF x with
  | S754_zero s => Some (s, 0, 1)
  | S754_finite s m e =>
      if 0 <=? e then Some (s, Zpos m * 2 ^ e, 1)
      else Some (s, Zpos m, 2 ^ (- e))
  | _ => None
  end.

(** Nearest integer to [n / d] for [0 <= n], [0 < d], ties to even. *)
Definition round_half_even (n d : Z) : Z :=
  let q := n / d in
  let r := n mod d in
  match 2 * r ?= d with
  | Lt => q
  | Gt => q + 1
  | Eq => if Z.even q then q else q + 1
  end.

(** The value of a decimal literal without sign: digits with an optional
    fraction and an optional exponent. *)
Definition of_decimal (neg : bool) (literal : list ascii) : option float :=
  let '(ip, rest1) := PyStr.span_digits literal in
  let '(fp, rest2) :=
    match rest1 with
    | "."%char :: r => PyStr.span_digits r
    | _ => ([], rest1)
    end in
  match ip ++ fp with
  | [] => None
  | _ :: _ =>
      let mant := PyStr.digits_value (ip ++ fp) in
      let scale := - Z.of_nat (length fp) in
      let finish (ex : Z) :=
        let e10 := ex + scale in
        Some (if 0 <=? e10 then of_fraction neg (mant * 10 ^ e10) 1
              else of_fraction neg mant (10 ^ (- e10))) in
      match rest2 with
      | [] => finish 0
      | c :: r =>
          if orb (PyStr.ascii_eqb c "e") (PyStr.ascii_eqb c "E") then
            let '(eneg, r') :=
              match r with
              | "-"%char :: t => (true, t)
              | "+"%char :: t => (false, t)
              | _ => (false, r)
              end in
            match PyStr.span_digits r' with
            | (d :: ds, []) =>
                let v := PyStr.digits_value (d :: ds) in
                finish (if eneg then - v else v)
            | _ => None
            end
          else None
      end
  end.

(** [float(s)] on a string: optional surrounding white space, an optional
    sign, then [inf], [infinity], [nan] in any case or a decimal literal,
    with single underscores between digits. *)
Definition of_string (s : string) : option float :=
  match PyStr.drop_underscores false (PyStr.chars (PyStr.strip_number s)) with
  | None => None
  | Some body =>
      let '(neg, rest) :=
        match body with
        | "-"%char :: r => (true, r)
        | "+"%char :: r => (false, r)
        | _ => (false, body)
        end in
      let word := PyStr.lower (PyStr.str rest) in
      if orb (String.eqb word "inf") (String.eqb word "infinity")
      then Some (if neg then neg_infinity else infinity)
      else if String.eqb word "nan" then Some nan
      else of_decimal neg rest
  end.

(** The integers from which rounding to nearest reaches beyond the
    largest finite binary64 number. *)
Definition overflow_threshold : Z := 2 ^ 1024 - 2 ^ 970.

(** [float(n)] on an integer; [None] is Python's [OverflowError]. *)
Definition of_Z (n : Z) : option float :=
  if Z.abs n <? overflow_threshold then Some (of_scaled n 0 false) else None.

(** [round(x, ndigits)]: the float nearest to the decimal obtained by
    rounding the exact value of [x] to [ndigits] places, ties to even. *)
Definition round (x : float) (ndigits : Z) : float :=
  match to_fraction x with
  | None => x
  | Some (neg, n, d) =>
      if n =? 0 then x
      else
        let p := 10 ^ Z.abs ndigits in
        if 0 <=? ndigits
        then of_fraction neg (round_half_even (n * p) d) p
        else of_fraction neg (round_half_even n (d * p) * p) 1
  end.

(** The decimal exponent [k] with [10^k <= n/d < 10^(k+1)], for
    [0 < n], [0 < d]. *)
Fixpoint exponent_up (fuel : nat) (n d : Z) (k : Z) : Z :=
  match fuel with
  | O => k
  | S fuel' => if 10 * d <=? n then exponent_up fuel' n (10 * d) (k + 1) else k
  end.

Fixpoint exponent_down (fuel : nat) (n d : Z) (k : Z) : Z :=
  match fuel with
  | O => k
  | S fuel' => if n <? d then exponent_down fuel' (10 * n) d (k - 1) else k
  end.

Definition decimal_exponent (n d : Z) : Z :=
  if d <=? n then exponent_up 400 n d 0 else exponent_down 400 n d 0.

Definition pad_left (width : nat) (l : list ascii) : list ascii :=
  repeat "0"%char (width - length l) ++ l.

Definition digits (n : Z) : list ascii :=
  PyStr.digits_of_pos (S (Z.to_nat (Z.log2 n))) n [].

(** ["%.5e" % x] *)
Definition format_e5 (x : float) : string :=
  match Prim2SF x with
  | S754_nan => "nan"
  | S754_infinity s => if s then "-inf" else "inf"
  | S754_zero s => if s then "-0.00000e+00" else "0.00000e+00"
  | S754_finite s m e =>
      let '(n, d) := if 0 <=? e then (Zpos m * 2 ^ e, 1) else (Zpos m, 2 ^ (- e)) in
      let k := decimal_exponent n d in
      (* six significant digits: n/d scaled by 10^(5-k) *)
      let r := if 0 <=? 5 - k then round_half_even (n * 10 ^ (5 - k)) d
               else round_half_even n (d * 10 ^ (k - 5)) in
      let '(r, k) := if r =? 1000000 then (100000, k + 1) else (r, k) in
      match digits r with
      | lead :: frac =>
          (if s then "-" else "") +:+
          PyStr.str (lead :: "."%char :: frac) +:+ "e" +:+
          (if k <? 0 then "-" else "+") +:+
          PyStr.str (pad_left 2 (digits (Z.abs k)))
      | [] => ""
      end
  end.

(** [int(x)] on a float: truncation towards zero; infinities and NaN have
    no integer value. *)
Definition trunc (x : float) : option Z :=
  match to_fraction x with
  | Some (neg, n, d) => Some (if neg then - (n / d) else n / d)
  | None => None
  end.

End PyFloat.

(** ** Python values and built-in conversions *)

Inductive pyval :=
| PNone
| PBool (b : bool)
| PInt (n : Z)
| PFloat (x : float)
| PStr (s : string).

Inductive exn :=
| ValueNotSupportedException
| OutOfRangeException
| UnknownPhysicalNameException
| SelectorRangeException
| SelectorNameException
| Exception (msg : string)
| ValueError
| TypeError
| IndexError
| KeyError
| AttributeError
| ZeroDivisionError
| OverflowError
| StructError.

Inductive result (A : Type) :=
| Ok (a : A)
| Raise (e : exn).
Arguments Ok {A} a.
Arguments Raise {A} e.

Module Py.

(** [repr(x)] of a float: the shortest decimal that reads back as [x]. *)
Fixpoint shortest_digits (fuel : nat) (p : Z) (n d : Z) (k : Z) (x : float)
  : Z * Z :=
  let r := if 0 <=? p - 1 - k then PyFloat.round_half_even (n * 10 ^ (p - 1 - k)) d
           else PyFloat.round_half_even n (d * 10 ^ (k - (p - 1))) in
  let back := if 0 <=? k - (p - 1) then PyFloat.of_fraction false (r * 10 ^ (k - (p - 1))) 1
              else PyFloat.of_fraction false r (10 ^ (p - 1 - k)) in
  match fuel with
  | O => (r, p)
  | S fuel' =>
      if PrimFloat.eqb back x then (r, p)
      else shortest_digits fuel' (p + 1) n d k x
  end.

Fixpoint strip_zeros (l : list ascii) : list ascii :=
  match l with
  | "0"%char :: r => strip_zeros r
  | _ => l
  end.

Definition float_repr (x : float) : string :=
  match Prim2SF x with
  | S754_nan => "nan"
  | S754_infinity s => if s then "-inf" else "inf"
  | S754_zero s => if s then "-0.0" else "0.0"
  | S754_finite s m e =>
      let '(n, d) := if 0 <=? e then (Zpos m * 2 ^ e, 1) else (Zpos m, 2 ^ (- e)) in
      let k := PyFloat.decimal_exponent n d in
      let '(r, p) := shortest_digits 16 1 n d k (abs x) in
      (* rounding up may have produced one more digit *)
      let k := if 10 ^ p <=? r then k + 1 else k in
      let ds := rev (strip_zeros (rev (PyFloat.digits r))) in
      let decpt := k + 1 in
      let body :=
        if orb (decpt <=? -4) (16 <? decpt) then
          match ds with
          | lead :: frac =>
              PyStr.str (lead :: match frac with [] => [] | _ => "."%char :: frac end)
              +:+ "e" +:+ (if k <? 0 then "-" else "+")
              +:+ PyStr.str (PyFloat.pad_left 2 (PyFloat.digits (Z.abs k)))
          | [] => ""
          end
        else if decpt <=? 0 then
          PyStr.str ("0"%char :: "."%char :: repeat "0"%char (Z.to_nat (- decpt)) ++ ds)
        else
          let ip := firstn (Z.to_nat decpt) ds in
          let ip := ip ++ repeat "0"%char (Z.to_nat decpt - length ip) in
          let fp := skipn (Z.to_nat decpt) ds in
          PyStr.str (ip ++ "."%char :: match fp with [] => ["0"%char] | _ => fp end) in
      (if s then "-" else "") +:+ body
  end.

(** [str(v)] *)
Definition str (v : pyval) : string :=
  match v with
  | PNone => "None"
  | PBool b => if b then "True" else "False"
  | PInt n => PyStr.of_Z n
  | PFloat x => float_repr x
  | PStr s => s
  end.

(** [bool(v)] *)
Definition bool (v : pyval) : Datatypes.bool :=
  match v with
  | PNone => false
  | PBool b => b
  | PInt n => negb (n =? 0)
  | PFloat x => negb (PrimFloat.eqb x zero)
  | PStr s => negb (String.eqb s "")
  end.

(** [float(v)] *)
Definition float (v : pyval) : result PrimFloat.float :=
  match v with
  | PNone => Raise TypeError
  | PBool b => Ok (if b then one else zero)
  | PInt n => match PyFloat.of_Z n with Some x => Ok x | None => Raise OverflowError end
  | PFloat x => Ok x
  | PStr s => match PyFloat.of_string s with Some x => Ok x | None => Raise ValueError end
  end.

(** [int(v)] *)
Definition int (v : pyval) : result Z :=
  match v with
  | PNone => Raise TypeError
  | PBool b => Ok (if b then 1 else 0)
  | PInt n => Ok n
  | PFloat x =>
      match PyFloat.trunc x with
      | Some n => Ok n
      | None => Raise (if is_nan x then ValueError else OverflowError)
      end
  | PStr s => match PyStr.to_Z s with Some n => Ok n | None => Raise ValueError end
  end.

(** [v == s] for a string [s]. *)
Definition eq_str (v : pyval) (s : string) : Datatypes.bool :=
  match v with
  | PStr t => String.eqb t s
  | _ => false
  end.

(** The numeric operands of Python's arithmetic. *)
Inductive number :=
| NInt (n : Z)
| NFloat (x : PrimFloat.float).

Definition as_number (v : pyval) : option number :=
  match v with
  | PBool b => Some (NInt (if b then 1 else 0))
  | PInt n => Some (NInt n)
  | PFloat x => Some (NFloat x)
  | _ => None
  end.

Definition number_float (n : number) : result PrimFloat.float :=
  match n with
  | NInt n => float (PInt n)
  | NFloat x => Ok x
  end.

(** [a / b] (true division): the quotient of two integers is rounded
    once; a zero divisor is an error also for floats. *)
Definition truediv (a b : pyval) : result PrimFloat.float :=
  match as_number a, as_number b with
  | Some (NInt n), Some (NInt d) =>
      if d =? 0 then Raise ZeroDivisionError
      else
        let q := PyFloat.of_fraction (xorb (n <? 0) (d <? 0)) (Z.abs n) (Z.abs d) in
        if is_infinity q then Raise OverflowError else Ok q
  | Some x, Some y =>
      match number_float x, number_float y with
      | Ok x, Ok y =>
          if PrimFloat.eqb y zero then Raise ZeroDivisionError else Ok (x / y)%float
      | Raise e, _ | _, Raise e => Raise e
      end
  | _, _ => Raise TypeError
  end.

(** [a * b] for a float [a]. *)
Definition mul_float (a : PrimFloat.float) (b : pyval) : result PrimFloat.float :=
  match as_number b with
  | Some y =>
      match number_float y with
      | Ok y => Ok (a * y)%float
      | Raise e => Raise e
      end
  | None => Raise TypeError
  end.

End Py.

(** The conversions stay folded in proofs; they are evaluated on closed
    inputs only. *)
Arguments Py.float : simpl never.
Arguments Py.int : simpl never.
Arguments Py.str : simpl never.
Arguments Py.bool : simpl never.
Arguments Py.truediv : simpl never.
Arguments Py.mul_float : simpl never.
Arguments PyFloat.of_string : simpl never.
Arguments PyFloat.of_Z : simpl never.
Arguments PyFloat.round : simpl never.
Arguments PyFloat.format_e5 : simpl never.
Arguments PyStr.of_Z : simpl never.
Arguments PyStr.to_Z : simpl never.
Arguments PyStr.lower : simpl never.
Arguments PyStr.lstrip : simpl never.
Arguments PyStr.rstrip : simpl never.
Arguments PyStr.strip_number : simpl never.
Arguments PyStr.split : simpl never.
Arguments PyStr.contains : simpl never.
Arguments PyStr.endswith : simpl never.
Arguments PyStr.startswith : simpl never.

(** Dictionaries with string keys, in insertion order. *)
Fixpoint dict_find {V : Type} (k : string) (d : list (string * V)) : option V :=
  match d with
  | (k', v) :: r => if String.eqb k k' then Some v else dict_find k r
  | [] => None
  end.

(** [v in d] for a dictionary keyed by strings: only a string can be one of
    the keys. *)
Definition in_dict {V : Type} (v : pyval) (d : list (string * V)) : bool :=
  match v with
  | PStr s => match dict_find s d with Some _ => true | None => false end
  | _ => false
  end.

Arguments dict_find : simpl never.
Arguments in_dict : simpl never.

(** [[k for k,v in d.items() if v == value]], in dictionary order. *)
Definition reverse_lookup (value : string) (d : list (string * string)) : list string :=
  map fst (List.filter (fun kv => String.eqb (snd kv) value) d).

(** ** The instrument and the driver object *)

(** One exchange with the instrument, or a blocking wait. *)
Inductive event :=
| Write (command : string)
| WriteBlock (data : list byte)
| Ask (command reply : string)
| Read (reply : string)
| ReadBlock (data : list byte)
| Sleep (seconds : float).

(** The instrument answers as a function of everything exchanged so far. *)
Record instrument := {
  ask_reply : list event -> string -> string;
  read_reply : list event -> string;
  block_reply : list event -> list byte }.

(** A key of [_measurement_slots] is a slot letter; [None] is Python's
    [None], the value [selected_slot] starts from. *)
Abbreviation slot_key := (option string).
Abbreviation slot_value := (option (string * string)).

Record driver := {
  driver_operation_simulate : bool;
  channel_count : nat;
  channel_name : list string;
  channel_command_name : list string;
  horizontal_divisions : Z;
  vertical_divisions : Z;
  (** scalar instance attributes, e.g. ["timebase_scale"] for [_timebase_scale] *)
  attrs : gmap string pyval;
  (** per-channel lists, e.g. ["channel_coupling"] for [_channel_coupling] *)
  channel_attrs : gmap string (list pyval);
  cache_valid : gmap (string * option nat) bool;
  measurement_slots : list (slot_key * slot_value);
  trace : list event;
  device : instrument }.

Definition with_attrs (f : gmap string pyval -> gmap string pyval) (st : driver) : driver :=
  {| driver_operation_simulate := driver_operation_simulate st;
     channel_count := channel_count st; channel_name := channel_name st;
     channel_command_name := channel_command_name st;
     horizontal_divisions := horizontal_divisions st;
     vertical_divisions := vertical_divisions st;
     attrs := f (attrs st); channel_attrs := channel_attrs st;
     cache_valid := cache_valid st; measurement_slots := measurement_slots st;
     trace := trace st; device := device st |}.

Definition with_channel_attrs
    (f : gmap string (list pyval) -> gmap string (list pyval)) (st : driver) : driver :=
  {| driver_operation_simulate := driver_operation_simulate st;
     channel_count := channel_count st; channel_name := channel_name st;
     channel_command_name := channel_command_name st;
     horizontal_divisions := horizontal_divisions st;
     vertical_divisions := vertical_divisions st;
     attrs := attrs st; channel_attrs := f (channel_attrs st);
     cache_valid := cache_valid st; measurement_slots := measurement_slots st;
     trace := trace st; device := device st |}.

Definition with_cache_valid
    (f : gmap (string * option nat) bool -> gmap (string * option nat) bool)
    (st : driver) : driver :=
  {| driver_operation_simulate := driver_operation_simulate st;
     channel_count := channel_count st; channel_name := channel_name st;
     channel_command_name := channel_command_name st;
     horizontal_divisions := horizontal_divisions st;
     vertical_divisions := vertical_divisions st;
     attrs := attrs st; channel_attrs := channel_attrs st;
     cache_valid := f (cache_valid st); measurement_slots := measurement_slots st;
     trace := trace st; device := device st |}.

Definition with_measurement_slots
    (f : list (slot_key * slot_value) -> list (slot_key * slot_value))
    (st : driver) : driver :=
  {| driver_operation_simulate := driver_operation_simulate st;
     channel_count := channel_count st; channel_name := channel_name st;
     channel_command_name := channel_command_name st;
     horizontal_divisions := horizontal_divisions st;
     vertical_divisions := vertical_divisions st;
     attrs := attrs st; channel_attrs := channel_attrs st;
     cache_valid := cache_valid st; measurement_slots := f (measurement_slots st);
     trace := trace st; device := device st |}.

Definition with_event (e : event) (st : driver) : driver :=
  {| driver_operation_simulate := driver_operation_simulate st;
     channel_count := channel_count st; channel_name := channel_name st;
     channel_command_name := channel_command_name st;
     horizontal_divisions := horizontal_divisions st;
     vertical_divisions := vertical_divisions st;
     attrs := attrs st; channel_attrs := channel_attrs st;
     cache_valid := cache_valid st; measurement_slots := measurement_slots st;
     trace := trace st ++ [e]; device := device st |}.

(** ** Methods: state passing with exceptions

    A method maps the driver object to its outcome and the object as the
    method left it; an exception keeps the mutations made before it. *)

Definition M (A : Type) : Type := driver -> result A * driver.

Global Instance M_ret : MRet M := fun A a st => (Ok a, st).

Definition bind {A B : Type} (m : M A) (k : A -> M B) : M B := fun st =>
  match m st with
  | (Ok a, st') => k a st'
  | (Raise e, st') => (Raise e, st')
  end.

Global Instance M_bind : MBind M := fun A B k m => bind m k.

Notation "'let*' x := m 'in' k" := (bind m (fun x => k))
  (at level 10, x name, m at level 100, k at level 200).
Notation "'let*' ' p := m 'in' k" := (bind m (fun x => match x with p => k end))
  (at level 10, p pattern, m at level 100, k at level 200).

Definition raise {A : Type} (e : exn) : M A := fun st => (Raise e, st).

Definition lift {A : Type} (r : result A) : M A := fun st => (r, st).

(** [if b: m] *)
Definition when (b : bool) (m : M unit) : M unit := if b then m else mret tt.

Definition simulating : M bool := fun st => (Ok (driver_operation_simulate st), st).

Definition read_state {A : Type} (f : driver -> A) : M A := fun st => (Ok (f st), st).

(** *** Transport *)

Definition _write (command : string) : M unit :=
  fun st => (Ok tt, with_event (Write command) st).

Definition _write_ieee_block (data : list byte) : M unit :=
  fun st => (Ok tt, with_event (WriteBlock data) st).

Definition _ask (command : string) : M string :=
  fun st =>
    let reply := ask_reply (device st) (trace st) command in
    (Ok reply, with_event (Ask command reply) st).

Definition _read : M string :=
  fun st =>
    let reply := read_reply (device st) (trace st) in
    (Ok reply, with_event (Read reply) st).

Definition _read_ieee_block : M (list byte) :=
  fun st =>
    let data := block_reply (device st) (trace st) in
    (Ok data, with_event (ReadBlock data) st).

(** [time.sleep(seconds)] *)
Definition sleep (seconds : float) : M unit :=
  fun st => (Ok tt, with_event (Sleep seconds) st).

(** *** Instance attributes *)

(** [self._name] *)
Definition get_attr (name : string) : M pyval :=
  fun st =>
    match attrs st !! name with
    | Some v => (Ok v, st)
    | None => (Raise AttributeError, st)
    end.

(** [self._name = v] *)
Definition set_attr (name : string) (v : pyval) : M unit :=
  fun st => (Ok tt, with_attrs (insert name v) st).

(** [self._name[index]] *)
Definition get_item (name : string) (index : nat) : M pyval :=
  fun st =>
    match channel_attrs st !! name with
    | Some l =>
        match l !! index with
        | Some v => (Ok v, st)
        | None => (Raise IndexError, st)
        end
    | None => (Raise AttributeError, st)
    end.

(** [self._name[index] = v] *)
Definition set_item (name : string) (index : nat) (v : pyval) : M unit :=
  fun st =>
    match channel_attrs st !! name with
    | Some l =>
        if decide (index < length l)%nat
        then (Ok tt, with_channel_attrs (insert name (<[index:=v]> l)) st)
        else (Raise IndexError, st)
    | None => (Raise AttributeError, st)
    end.

(** [l[i]] *)
Definition nth_or_raise {A : Type} (l : list A) (i : nat) : M A :=
  match l !! i with
  | Some a => mret a
  | None => raise IndexError
  end.

(** *** The validity cache *)

(** Modelled from the spec: the validity cache of the base driver
    ([_get_cache_valid] and [_set_cache_valid] of [ivi.Driver], which the
    source calls and does not define).  One validity flag per attribute,
    global or per channel index; an entry never written is not valid.  A call
    that names no tag addresses the entry of the attribute whose accessor
    makes the call, which the embedding writes out. *)
Definition _get_cache_valid (tag : string) (index : option nat) : M bool :=
  fun st => (Ok (default false (cache_valid st !! (tag, index))), st).

Definition _set_cache_valid (valid : bool) (tag : string) (index : option nat) : M unit :=
  fun st => (Ok tt, with_cache_valid (insert (tag, index) valid) st).

(** Modelled from the spec: [driver_operation.invalidate_all_attributes] of
    the base driver: every cache entry becomes invalid. *)
Definition invalidate_all_attributes : M unit :=
  fun st => (Ok tt, with_cache_valid (fun _ => ∅) st).

Fixpoint index_of (s : string) (l : list string) : option nat :=
  match l with
  | [] => None
  | x :: r => if String.eqb x s then Some O else option_map S (index_of s r)
  end.

(** Modelled from the spec: [ivi.get_index], which the source calls and does
    not define: an integer selector is checked against the bounds of the
    list, a name is looked up in it; an unknown channel is an error. *)
Definition get_index (names : list string) (index : pyval) : M nat :=
  match index with
  | PInt n =>
      if andb (0 <=? n) (n <? Z.of_nat (length names))
      then mret (Z.to_nat n) else raise SelectorRangeException
  | PStr s =>
      match index_of s names with
      | Some i => mret i
      | None => raise SelectorNameException
      end
  | _ => raise SelectorNameException
  end.

(** [d[v]] for a dictionary keyed by strings. *)
Definition dict_get {V : Type} (d : list (string * V)) (v : pyval) : M V :=
  match v with
  | PStr s =>
      match dict_find s d with
      | Some x => mret x
      | None => raise KeyError
      end
  | _ => raise KeyError
  end.

(** ** The driver class [lecroyWaveJet300] *)

Definition AcquisitionTypeMapping : list (string * string) :=
  [("normal", "normal"); ("peak_detect", "peak"); ("average", "average")].
Definition AcquisitionAverageCount : list Z := [2; 4; 8; 16; 32; 64; 128; 256].
Definition VerticalCouplingMapping : list (string * string) :=
  [("ac", "AC1M"); ("dc", "DC1M"); ("gnd", "GND")].
Definition VerticalCouplingReverseMapping : list (string * string) :=
  [("AC1M", "ac"); ("DC1M", "dc"); ("DC50", "dc"); ("GND", "gnd")].
Definition TriggerTypeMapping : list (string * string) :=
  [("edge", "edge"); ("ac_line", "edge")].
Definition TriggerCouplingMapping : list (string * string) :=
  [("ac", "ac"); ("dc", "dc"); ("hf_reject", "hf"); ("lf_reject", "lf")].
Definition SampleModeMapping : list (string * string) :=
  [("real_time", "off"); ("equivalent_time", "on")].
Definition SlopeMapping : list (string * string) :=
  [("positive", "pos"); ("negative", "neg")].
Definition MeasurementFunctionMapping : list (string * string) :=
  [("rise_time", "tr10-90"); ("fall_time", "tf90-10"); ("frequency", "freq");
   ("period", "period"); ("voltage_rms", "vrms"); ("voltage_peak_to_peak", "p-p");
   ("voltage_max", "max"); ("voltage_min", "min"); ("voltage_high", "top");
   ("voltage_low", "base"); ("voltage_average", "vmean"); ("width_negative", "-width");
   ("width_positive", "+width"); ("duty_cycle_positive", "duty"); ("amplitude", "t-b");
   ("voltage_cycle_rms", "cvrms"); ("voltage_cycle_average", "cvmean");
   ("overshoot", "+oshot"); ("preshoot", "-oshot")].
Definition ScreenshotImageFormatMapping : list (string * string) :=
  [("bmp", "BMP"); ("png", "PNG"); ("tiff", "TIFF")].
Definition TimebaseModeMapping : list (string * string) :=
  [("main", "yt"); ("xy", "xy"); ("xytrg", "xytrg"); ("roll", "yt")].
Definition ESRBitErrorMapping : list (Z * string) :=
  [(4, "Query error"); (8, "Device-specific error"); (16, "Execution error");
   (32, "Command error")].

(** [_bool_to_onoff] *)
Definition _bool_to_onoff (value : pyval) : string :=
  if Py.bool value then "on" else "off".

(** [_suffixed_string_to_float] *)
Definition _suffixed_string_to_float (s : string) : result float :=
  let scaled (set : string) (factor : float) : result float :=
    match Py.float (PStr (PyStr.rstrip set s)) with
    | Ok x => Ok (x * factor)%float
    | Raise e => Raise e
    end in
  if PyStr.endswith "n" s then scaled "n" 1e-9%float
  else if PyStr.endswith "u" s then scaled "u" 1e-6%float
  else if PyStr.endswith "m" s then scaled "m" 1e-3%float
  else if PyStr.endswith "k" (PyStr.lower s) then scaled "kK" 1e3%float
  else if PyStr.endswith "M" s then scaled "M" 1e6%float
  else Py.float (PStr s).

(** [self._channel_command_name[index]] and [self._channel_name[index]] *)
Definition command_name (index : nat) : M string :=
  let* names := read_state channel_command_name in nth_or_raise names index.

Definition display_name (index : nat) : M string :=
  let* names := read_state channel_name in nth_or_raise names index.

(** *** Identity *)

Definition _load_id_string : M unit :=
  let* sim := simulating in
  if sim then
    set_attr "identity_instrument_manufacturer" (PStr "Not available while simulating");;
    set_attr "identity_instrument_model" (PStr "Not available while simulating");;
    set_attr "identity_instrument_firmware_revision" (PStr "Not available while simulating")
  else
    let* reply := _ask "*IDN?" in
    let lst := PyStr.split "," reply in
    let* v0 := nth_or_raise lst 0 in
    set_attr "identity_instrument_manufacturer" (PStr v0);;
    let* v1 := nth_or_raise lst 1 in
    set_attr "identity_instrument_model" (PStr v1);;
    let* v3 := nth_or_raise lst 3 in
    set_attr "identity_instrument_firmware_revision" (PStr v3);;
    _set_cache_valid true "identity_instrument_manufacturer" None;;
    _set_cache_valid true "identity_instrument_model" None;;
    _set_cache_valid true "identity_instrument_firmware_revision" None.

Definition _get_identity_instrument_manufacturer : M pyval :=
  let* valid := _get_cache_valid "identity_instrument_manufacturer" None in
  if valid then get_attr "identity_instrument_manufacturer"
  else _load_id_string;; get_attr "identity_instrument_manufacturer".

Definition _get_identity_instrument_model : M pyval :=
  let* valid := _get_cache_valid "identity_instrument_model" None in
  if valid then get_attr "identity_instrument_model"
  else _load_id_string;; get_attr "identity_instrument_model".

Definition _get_identity_instrument_firmware_revision : M pyval :=
  let* valid := _get_cache_valid "identity_instrument_firmware_revision" None in
  if valid then get_attr "identity_instrument_firmware_revision"
  else _load_id_string;; get_attr "identity_instrument_firmware_revision".

(** *** Utility *)

Definition _utility_error_query : M (Z * string) :=
  let* sim := simulating in
  let* '(error_code, error_message) :=
    (if negb sim then
       let* reply := _ask "*ESR?" in
       let* error_code := lift (Py.int (PStr reply)) in
       mret (error_code,
             fold_left
               (fun error_message '(mask, message) =>
                  if negb (Z.land error_code mask =? 0) then
                    (if negb (String.eqb error_message "")
                     then error_message +:+ " + " else error_message) +:+ message
                  else error_message)
               ESRBitErrorMapping "")
     else mret (0, "")) in
  mret (error_code,
        if String.eqb error_message "" then "No error" else error_message).

Definition _utility_reset : M unit :=
  let* sim := simulating in
  when (negb sim) (_write "*RST";; invalidate_all_attributes).

Definition _utility_reset_with_defaults : M unit := _utility_reset.

Definition _utility_self_test : M (Z * string) :=
  let* sim := simulating in
  if negb sim then
    _write "*TST?";;
    sleep 40%float;;
    let* reply := _read in
    let* code := lift (Py.int (PStr reply)) in
    mret (code, if negb (code =? 0) then "Self test failed" else "Self test passed")
  else mret (0, "Self test passed").

(** [_init_channels]: the names and the per-channel lists this class adds. *)
Definition _init_channels : M unit :=
  fun st =>
    let n := channel_count st in
    (Ok tt,
     {| driver_operation_simulate := driver_operation_simulate st;
        channel_count := n;
        channel_name := map (fun i => "CH" +:+ PyStr.of_Z (Z.of_nat i + 1)) (seq 0 n);
        channel_command_name := map (fun i => "C" +:+ PyStr.of_Z (Z.of_nat i + 1)) (seq 0 n);
        horizontal_divisions := horizontal_divisions st;
        vertical_divisions := vertical_divisions st;
        attrs := attrs st;
        channel_attrs :=
          <["channel_bw_limit" := repeat (PBool false) n]>
            (<["channel_scale" := repeat (PFloat 1%float) n]> (channel_attrs st));
        cache_valid := cache_valid st;
        measurement_slots := measurement_slots st;
        trace := trace st; device := device st |}).

Definition _system_fetch_setup : M (list byte) :=
  let* sim := simulating in
  if sim then mret []
  else _write "DTSTUP?";; _read_ieee_block.

Definition _system_load_setup (data : list byte) : M unit :=
  let* sim := simulating in
  if sim then mret tt
  else _write "DTSTUP";; _write_ieee_block data;; invalidate_all_attributes.

Definition _display_fetch_screenshot (format : pyval) : M (list byte) :=
  let* sim := simulating in
  if sim then mret []
  else
    when (negb (in_dict format ScreenshotImageFormatMapping))
      (raise ValueNotSupportedException);;
    let* code := dict_get ScreenshotImageFormatMapping format in
    _write ("TSCRN? " +:+ code);;
    _read_ieee_block.

(** *** Timebase and display *)

Definition _get_timebase_mode : M pyval :=
  let* sim := simulating in
  let* valid := _get_cache_valid "timebase_mode" None in
  when (negb sim && negb valid)
    (let* roll := _ask "ROLL?" in
     (if String.eqb (PyStr.lower roll) "on" then set_attr "timebase_mode" (PStr "roll")
      else
        let* reply := _ask "XYDS?" in
        let value := PyStr.lower reply in
        let* k := nth_or_raise
                    (List.filter (fun k => negb (String.eqb k "roll"))
                       (reverse_lookup value TimebaseModeMapping)) 0 in
        set_attr "timebase_mode" (PStr k));;
     _set_cache_valid true "timebase_mode" None);;
  get_attr "timebase_mode".

Definition _set_timebase_mode (value : pyval) : M unit :=
  when (negb (in_dict value TimebaseModeMapping)) (raise ValueNotSupportedException);;
  let* sim := simulating in
  when (negb sim)
    (let* code := dict_get TimebaseModeMapping value in
     _write ("XYDS " +:+ code);;
     when (Py.eq_str value "roll") (_write "ROLL ON"));;
  set_attr "timebase_mode" value;;
  _set_cache_valid true "timebase_mode" None.

Definition _get_timebase_position : M pyval :=
  let* sim := simulating in
  let* valid := _get_cache_valid "timebase_position" None in
  when (negb sim && negb valid)
    (let* reply := _ask "TRDL?" in
     let* x := lift (Py.float (PStr reply)) in
     set_attr "timebase_position" (PFloat x);;
     _set_cache_valid true "timebase_position" None);;
  get_attr "timebase_position".

Definition _set_timebase_position (value : pyval) : M unit :=
  let* value := lift (Py.float value) in
  let* sim := simulating in
  when (negb sim) (_write ("TRDL " +:+ PyFloat.format_e5 value));;
  set_attr "timebase_position" (PFloat value);;
  _set_cache_valid true "timebase_position" None.

Definition _get_timebase_scale : M pyval :=
  let* sim := simulating in
  let* valid := _get_cache_valid "timebase_scale" None in
  when (negb sim && negb valid)
    (let* reply := _ask "TDIV?" in
     let* scale := lift (Py.float (PStr reply)) in
     set_attr "timebase_scale" (PFloat scale);;
     let* divisions := read_state horizontal_divisions in
     let* product := lift (Py.mul_float scale (PInt divisions)) in
     set_attr "timebase_range" (PFloat (PyFloat.round product 6));;
     _set_cache_valid true "timebase_scale" None;;
     _set_cache_valid true "timebase_range" None);;
  get_attr "timebase_scale".

Definition _set_timebase_scale (value : pyval) : M unit :=
  let* value := lift (Py.float value) in
  let* sim := simulating in
  when (negb sim) (_write ("TDIV " +:+ PyFloat.format_e5 value));;
  (* Coercion algorithm not implemented in driver, so not caching the value *)
  _set_cache_valid false "timebase_scale" None;;
  _set_cache_valid false "timebase_range" None.

Definition _get_timebase_range : M pyval :=
  _get_timebase_scale;;
  get_attr "timebase_range".

Definition _set_timebase_range (value : pyval) : M unit :=
  let* divisions := read_state horizontal_divisions in
  let* scale := lift (Py.truediv value (PInt divisions)) in
  _set_timebase_scale (PFloat scale).

Definition _get_display_vectors : M pyval :=
  let* sim := simulating in
  let* valid := _get_cache_valid "display_vectors" None in
  when (negb sim && negb valid)
    (let* reply := _ask "VECT?" in
     set_attr "display_vectors" (PBool (String.eqb (PyStr.lower reply) "on"));;
     _set_cache_valid true "display_vectors" None);;
  get_attr "display_vectors".

Definition _set_display_vectors (value : pyval) : M unit :=
  let* sim := simulating in
  when (negb sim) (_write ("VECT " +:+ _bool_to_onoff value));;
  set_attr "display_vectors" value;;
  _set_cache_valid true "display_vectors" None.

(** *** Acquisition *)

Definition _get_acquisition_type : M pyval :=
  let* sim := simulating in
  let* valid := _get_cache_valid "acquisition_type" None in
  when (negb sim && negb valid)
    (let* reply := _ask "ACQ?" in
     let value := PyStr.lower reply in
     let* k := nth_or_raise (reverse_lookup value AcquisitionTypeMapping) 0 in
     set_attr "acquisition_type" (PStr k);;
     _set_cache_valid true "acquisition_type" None);;
  get_attr "acquisition_type".

Definition _set_acquisition_type (value : pyval) : M unit :=
  when (negb (in_dict value AcquisitionTypeMapping)) (raise ValueNotSupportedException);;
  let* sim := simulating in
  when (negb sim)
    (let* code := dict_get AcquisitionTypeMapping value in
     _write ("ACQ " +:+ code));;
  set_attr "acquisition_type" value;;
  _set_cache_valid true "acquisition_type" None.

Definition _get_acquisition_number_of_points_minimum : M pyval :=
  get_attr "acquisition_number_of_points_minimum".

Definition _set_acquisition_number_of_points_minimum (value : pyval) : M unit :=
  let* value := lift (Py.int value) in
  set_attr "acquisition_number_of_points_minimum" (PInt value).

Definition _get_acquisition_record_length : M pyval :=
  let* sim := simulating in
  let* valid := _get_cache_valid "acquisition_record_length" None in
  when (negb sim && negb valid)
    (let* reply := _ask "MLEN?" in
     let* x := lift (_suffixed_string_to_float reply) in
     let* value := lift (Py.int (PFloat x)) in
     set_attr "acquisition_record_length" (PInt value);;
     _set_cache_valid true "acquisition_record_length" None);;
  get_attr "acquisition_record_length".

Definition _get_acquisition_time_per_record : M pyval :=
  let* sim := simulating in
  let* valid := _get_cache_valid "acquisition_time_per_record" None in
  when (negb sim && negb valid)
    (let* range := _get_timebase_range in
     set_attr "acquisition_time_per_record" range;;
     _set_cache_valid true "acquisition_time_per_record" None);;
  get_attr "acquisition_time_per_record".

Definition _get_acquisition_number_of_averages : M pyval :=
  let* sim := simulating in
  let* valid := _get_cache_valid "acquisition_number_of_averages" None in
  when (negb sim && negb valid)
    (let* reply := _ask "AVGCNT?" in
     let* n := lift (Py.int (PStr reply)) in
     set_attr "acquisition_number_of_averages" (PInt n);;
     _set_cache_valid true "acquisition_number_of_averages" None);;
  get_attr "acquisition_number_of_averages".

Definition _set_acquisition_number_of_averages (value : pyval) : M unit :=
  let* value := lift (Py.int value) in
  when (negb (existsb (Z.eqb value) AcquisitionAverageCount)) (raise OutOfRangeException);;
  let* sim := simulating in
  when (negb sim) (_write ("AVGCNT " +:+ PyStr.of_Z value));;
  set_attr "acquisition_number_of_averages" (PInt value);;
  _set_cache_valid true "acquisition_number_of_averages" None.

Definition _get_acquisition_sample_mode : M pyval :=
  let* sim := simulating in
  let* valid := _get_cache_valid "acquisition_sample_mode" None in
  when (negb sim && negb valid)
    (let* reply := _ask "EQU?" in
     let value := PyStr.lower reply in
     let* k := nth_or_raise (reverse_lookup value SampleModeMapping) 0 in
     set_attr "acquisition_sample_mode" (PStr k);;
     _set_cache_valid true "acquisition_sample_mode" None);;
  get_attr "acquisition_sample_mode".

Definition _set_acquisition_sample_mode (value : pyval) : M unit :=
  when (negb (in_dict value SampleModeMapping)) (raise ValueNotSupportedException);;
  let* sim := simulating in
  when (negb sim)
    (let* code := dict_get SampleModeMapping value in
     _write ("EQU " +:+ code));;
  set_attr "acquisition_sample_mode" value;;
  _set_cache_valid true "acquisition_sample_mode" None.

(** *** Channels *)

Definition _get_channel_enabled (index : pyval) : M pyval :=
  let* names := read_state channel_name in
  let* index := get_index names index in
  let* sim := simulating in
  let* valid := _get_cache_valid "channel_enabled" (Some index) in
  when (negb sim && negb valid)
    (let* cmd := command_name index in
     let* reply := _ask (cmd +:+ ":TRA?") in
     set_item "channel_enabled" index (PBool (String.eqb (PyStr.lower reply) "on"));;
     _set_cache_valid true "channel_enabled" (Some index));;
  get_item "channel_enabled" index.

Definition _set_channel_enabled (index value : pyval) : M unit :=
  let value := Py.bool value in
  let* names := read_state channel_command_name in
  let* index := get_index names index in
  let* sim := simulating in
  when (negb sim)
    (let* cmd := command_name index in
     _write (cmd +:+ ":TRA " +:+ _bool_to_onoff (PBool value)));;
  set_item "channel_enabled" index (PBool value);;
  _set_cache_valid true "channel_enabled" (Some index).

Definition _get_channel_input_impedance (index : pyval) : M pyval :=
  let* names := read_state channel_name in
  let* index := get_index names index in
  let* sim := simulating in
  let* valid := _get_cache_valid "channel_input_impedance" (Some index) in
  when (negb sim && negb valid)
    (let* cmd := command_name index in
     let* reply := _ask (cmd +:+ ":CPL?") in
     (if PyStr.contains "50" reply
      then set_item "channel_input_impedance" index (PInt 50)
      else set_item "channel_input_impedance" index (PInt 1000000));;
     _set_cache_valid true "channel_input_impedance" (Some index));;
  get_item "channel_input_impedance" index.

Definition _set_channel_input_impedance (index value : pyval) : M unit :=
  let* value := lift (Py.float value) in
  let* names := read_state channel_name in
  let* index := get_index names index in
  let* allowed :=
    (if PrimFloat.eqb value 1000000 then mret true
     else if PrimFloat.eqb value 50 then
       let* coupling := get_item "channel_coupling" index in
       mret (Py.eq_str coupling "dc")
     else mret false) in
  when (negb allowed) (raise (Exception "Invalid impedance selection"));;
  let* sim := simulating in
  when (negb sim)
    (let* coupling := get_item "channel_coupling" index in
     when (Py.eq_str coupling "dc")
       (if PrimFloat.eqb value 1000000 then
          let* cmd := command_name index in _write (cmd +:+ ":CPL DC1M")
        else if PrimFloat.eqb value 50 then
          let* cmd := command_name index in _write (cmd +:+ ":CPL DC50")
        else mret tt));;
  set_item "channel_input_impedance" index (PFloat value);;
  _set_cache_valid true "channel_input_impedance" (Some index).

Definition _get_channel_bw_limit (index : pyval) : M pyval :=
  let* names := read_state channel_name in
  let* index := get_index names index in
  let* sim := simulating in
  let* valid := _get_cache_valid "channel_bw_limit" (Some index) in
  when (negb sim && negb valid)
    (let* cmd := command_name index in
     let* reply := _ask (cmd +:+ ":BWL?") in
     let value := PyStr.lower reply in
     let value := if String.eqb value "full" then PBool false else PStr value in
     set_item "channel_bw_limit" index value;;
     _set_cache_valid true "channel_bw_limit" (Some index));;
  get_item "channel_bw_limit" index.

Definition _set_channel_bw_limit (index value : pyval) : M unit :=
  let* names := read_state channel_name in
  let* index := get_index names index in
  let value :=
    match value with
    | PBool b => if b then PStr "20m" else PStr "full"
    | _ => value
    end in
  let* text :=
    match value with
    | PStr s => mret s
    | _ => raise AttributeError
    end in
  when (negb (existsb (String.eqb (PyStr.lower text)) ["full"; "20m"; "100m"]))
    (raise ValueNotSupportedException);;
  let* sim := simulating in
  when (negb sim)
    (let* cmd := command_name index in
     _write (cmd +:+ ":BWL " +:+ text));;
  set_item "channel_bw_limit" index value;;
  _set_cache_valid true "channel_bw_limit" (Some index).

Definition _get_channel_input_frequency_max (index : pyval) : M pyval :=
  let* names := read_state channel_name in
  let* index := get_index names index in
  get_item "channel_input_frequency_max" index.

Definition _set_channel_input_frequency_max (index value : pyval) : M unit :=
  let* value := lift (Py.float value) in
  let* names := read_state channel_name in
  let* index := get_index names index in
  let* sim := simulating in
  when (negb sim)
    (_set_channel_bw_limit (PInt (Z.of_nat index)) (PBool (PrimFloat.ltb value 20e6)));;
  set_item "channel_input_frequency_max" index (PFloat value);;
  _set_cache_valid true "channel_input_frequency_max" (Some index).

Definition _get_channel_probe_attenuation (index : pyval) : M pyval :=
  let* names := read_state channel_name in
  let* index := get_index names index in
  let* sim := simulating in
  let* valid := _get_cache_valid "channel_probe_attenuation" (Some index) in
  when (negb sim && negb valid)
    (let* cmd := command_name index in
     let* reply := _ask (cmd +:+ ":PROBE?") in
     let* field := nth_or_raise (PyStr.split "," reply) 1 in
     let* n := lift (Py.int (PStr field)) in
     set_item "channel_probe_attenuation" index (PInt n);;
     _set_cache_valid true "channel_probe_attenuation" (Some index));;
  get_item "channel_probe_attenuation" index.

Definition _set_channel_probe_attenuation (index value : pyval) : M unit :=
  let* names := read_state channel_name in
  let* index := get_index names index in
  let* value := lift (Py.int value) in
  let* sim := simulating in
  when (negb sim)
    (let* cmd := command_name index in
     _write (cmd +:+ ":PROBE manual," +:+ PyStr.of_Z value));;
  set_item "channel_probe_attenuation" index (PInt value);;
  _set_cache_valid false "channel_probe_attenuation_auto" (Some index);;
  _set_cache_valid true "channel_probe_attenuation" (Some index).

Definition _get_channel_probe_attenuation_auto (index : pyval) : M pyval :=
  let* names := read_state channel_name in
  let* index := get_index names index in
  let* sim := simulating in
  let* valid := _get_cache_valid "channel_probe_attenuation_auto" (Some index) in
  when (negb sim && negb valid)
    (let* cmd := command_name index in
     let* reply := _ask (cmd +:+ ":PROBE?") in
     let* field := nth_or_raise (PyStr.split "," reply) 0 in
     set_item "channel_probe_attenuation_auto" index
       (PBool (String.eqb (PyStr.lower field) "auto"));;
     _set_cache_valid true "channel_probe_attenuation_auto" (Some index));;
  get_item "channel_probe_attenuation_auto" index.

Definition _set_channel_probe_attenuation_auto (index value : pyval) : M unit :=
  let* names := read_state channel_name in
  let* index := get_index names index in
  let value := if Py.bool value then "auto" else "manual" in
  let* sim := simulating in
  when (negb sim)
    (let* cmd := command_name index in
     _write (cmd +:+ ":PROBE " +:+ value +:+ ",1"));;
  set_item "channel_probe_attenuation_auto" index (PStr value);;
  _set_cache_valid false "channel_probe_attenuation" (Some index);;
  _set_cache_valid true "channel_probe_attenuation_auto" (Some index).

Definition _get_channel_coupling (index : pyval) : M pyval :=
  let* names := read_state channel_name in
  let* index := get_index names index in
  let* sim := simulating in
  let* valid := _get_cache_valid "channel_coupling" (Some index) in
  when (negb sim && negb valid)
    (let* cmd := command_name index in
     let* reply := _ask (cmd +:+ ":CPL?") in
     let* value := dict_get VerticalCouplingReverseMapping (PStr reply) in
     set_item "channel_coupling" index (PStr value);;
     _set_cache_valid true "channel_coupling" (Some index));;
  get_item "channel_coupling" index.

Definition _set_channel_coupling (index value : pyval) : M unit :=
  let* names := read_state channel_name in
  let* index := get_index names index in
  when (negb (in_dict value VerticalCouplingMapping)) (raise ValueNotSupportedException);;
  let* sim := simulating in
  when (negb sim)
    (let* cmd := command_name index in
     let* code := dict_get VerticalCouplingMapping value in
     _write (cmd +:+ ":CPL " +:+ code));;
  set_item "channel_coupling" index value;;
  _set_cache_valid false "channel_input_impedance" (Some index);;
  _set_cache_valid true "channel_coupling" (Some index).

Definition _get_channel_offset (index : pyval) : M pyval :=
  let* names := read_state channel_name in
  let* index := get_index names index in
  let* sim := simulating in
  let* valid := _get_cache_valid "channel_offset" (Some index) in
  when (negb sim && negb valid)
    (let* cmd := command_name index in
     let* reply := _ask (cmd +:+ ":OFST?") in
     let* x := lift (Py.float (PStr reply)) in
     set_item "channel_offset" index (PFloat x);;
     _set_cache_valid true "channel_offset" (Some index));;
  get_item "channel_offset" index.

Definition _set_channel_offset (index value : pyval) : M unit :=
  let* names := read_state channel_name in
  let* index := get_index names index in
  let* value := lift (Py.float value) in
  let* sim := simulating in
  when (negb sim)
    (let* cmd := command_name index in
     _write (cmd +:+ ":OFST " +:+ PyFloat.format_e5 value));;
  set_item "channel_offset" index (PFloat value);;
  _set_cache_valid true "channel_offset" (Some index).

Definition _get_channel_scale (index : pyval) : M pyval :=
  let* names := read_state channel_name in
  let* index := get_index names index in
  let* sim := simulating in
  let* valid := _get_cache_valid "channel_scale" (Some index) in
  when (negb sim && negb valid)
    (let* cmd := command_name index in
     let* reply := _ask (cmd +:+ ":VDIV?") in
     let* scale := lift (Py.float (PStr reply)) in
     set_item "channel_scale" index (PFloat scale);;
     let* divisions := read_state vertical_divisions in
     let* range := lift (Py.mul_float scale (PInt divisions)) in
     set_item "channel_range" index (PFloat range);;
     _set_cache_valid true "channel_scale" (Some index);;
     _set_cache_valid true "channel_range" (Some index));;
  get_item "channel_scale" index.

Definition _set_channel_scale (index value : pyval) : M unit :=
  let* names := read_state channel_name in
  let* index := get_index names index in
  let* value := lift (Py.float value) in
  let* sim := simulating in
  when (negb sim)
    (let* cmd := command_name index in
     _write (cmd +:+ ":VDIV " +:+ PyFloat.format_e5 value));;
  (* Coercion algorithm not implemented in driver, so not caching the value *)
  _set_cache_valid false "channel_scale" (Some index);;
  _set_cache_valid false "channel_range" (Some index).

Definition _get_channel_range (index : pyval) : M pyval :=
  let* names := read_state channel_name in
  let* index := get_index names index in
  _get_channel_scale (PInt (Z.of_nat index));;
  get_item "channel_range" index.

Definition _set_channel_range (index value : pyval) : M unit :=
  let* divisions := read_state vertical_divisions in
  let* scale := lift (Py.truediv value (PInt divisions)) in
  _set_channel_scale index (PFloat scale).

(** *** Trigger *)

Definition _get_measurement_status : M pyval := get_attr "measurement_status".

Definition _get_trigger_coupling : M pyval :=
  let* sim := simulating in
  let* valid := _get_cache_valid "trigger_coupling" None in
  when (negb sim && negb valid)
    (let* reply := _ask "TCPL?" in
     let value := PyStr.lower reply in
     let* k := nth_or_raise (reverse_lookup value TriggerCouplingMapping) 0 in
     set_attr "trigger_coupling" (PStr k));;
  get_attr "trigger_coupling".

Definition _set_trigger_coupling (value : pyval) : M unit :=
  when (negb (in_dict value TriggerCouplingMapping)) (raise ValueNotSupportedException);;
  let* sim := simulating in
  when (negb sim)
    (let* code := dict_get TriggerCouplingMapping value in
     _write ("TCPL " +:+ code));;
  set_attr "trigger_coupling" value;;
  _set_cache_valid true "trigger_coupling" None.

Definition _get_trigger_holdoff : M pyval :=
  let* sim := simulating in
  let* valid := _get_cache_valid "trigger_holdoff" None in
  when (negb sim && negb valid)
    (let* reply := _ask "THTM?" in
     let* x := lift (Py.float (PStr reply)) in
     set_attr "trigger_holdoff" (PFloat x);;
     _set_cache_valid true "trigger_holdoff" None);;
  get_attr "trigger_holdoff".

Definition _set_trigger_holdoff (value : pyval) : M unit :=
  let* value := lift (Py.float value) in
  let* sim := simulating in
  when (negb sim) (_write ("THTM " +:+ PyFloat.format_e5 value));;
  set_attr "trigger_holdoff" (PFloat value);;
  _set_cache_valid true "trigger_holdoff" None.

Definition _get_trigger_level : M pyval :=
  let* sim := simulating in
  let* valid := _get_cache_valid "trigger_level" None in
  when (negb sim && negb valid)
    (let* reply := _ask "TLVL?" in
     let* x := lift (Py.float (PStr reply)) in
     set_attr "trigger_level" (PFloat x);;
     _set_cache_valid true "trigger_level" None);;
  get_attr "trigger_level".

Definition _set_trigger_level (value : pyval) : M unit :=
  let* value := lift (Py.float value) in
  let* sim := simulating in
  when (negb sim) (_write ("TLVL " +:+ PyFloat.format_e5 value));;
  set_attr "trigger_level" (PFloat value);;
  _set_cache_valid true "trigger_level" None.

Definition _get_trigger_edge_slope : M pyval :=
  let* sim := simulating in
  let* valid := _get_cache_valid "trigger_edge_slope" None in
  when (negb sim && negb valid)
    (let* reply := _ask "TSLP?" in
     let value := PyStr.lower reply in
     let* k := nth_or_raise (reverse_lookup value SlopeMapping) 0 in
     set_attr "trigger_edge_slope" (PStr k);;
     _set_cache_valid true "trigger_edge_slope" None);;
  get_attr "trigger_edge_slope".

Definition _set_trigger_edge_slope (value : pyval) : M unit :=
  when (negb (in_dict value SlopeMapping)) (raise ValueNotSupportedException);;
  let* sim := simulating in
  when (negb sim)
    (let* code := dict_get SlopeMapping value in
     _write ("TSLP " +:+ code));;
  set_attr "trigger_edge_slope" value;;
  _set_cache_valid true "trigger_edge_slope" None.

Definition _get_trigger_source : M pyval :=
  let* sim := simulating in
  let* valid := _get_cache_valid "trigger_source" None in
  when (negb sim && negb valid)
    (let* reply := _ask "TSRC?" in
     let value := if PyStr.startswith "EXT" reply then "external" else PyStr.lower reply in
     set_attr "trigger_source" (PStr value);;
     _set_cache_valid true "trigger_source" None);;
  get_attr "trigger_source".

Definition _set_trigger_source (value : pyval) : M unit :=
  let value := Py.str value in
  let* names := read_state channel_name in
  let* value :=
    (if String.eqb (PyStr.lower value) "external" then mret "EXT10"
     else if negb (existsb (String.eqb value) names)
          then raise UnknownPhysicalNameException
          else mret value) in
  let* sim := simulating in
  when (negb sim) (_write ("TSRC " +:+ value));;
  set_attr "trigger_source" (PStr value);;
  _set_cache_valid true "trigger_source" None.

Definition _get_trigger_type : M pyval :=
  let* sim := simulating in
  let* valid := _get_cache_valid "trigger_type" None in
  when (negb sim && negb valid)
    (let* reply := _ask "TTYP?" in
     let value := PyStr.lower reply in
     let* value :=
       (if String.eqb value "edge" then
          let* reply := _ask "TSRC?" in
          let src := PyStr.lower reply in
          mret (if String.eqb src "line" then "ac_line" else value)
        else nth_or_raise (reverse_lookup value TriggerTypeMapping) 0) in
     set_attr "trigger_type" (PStr value);;
     _set_cache_valid true "trigger_type" None);;
  get_attr "trigger_type".

Definition _set_trigger_type (value : pyval) : M unit :=
  when (negb (in_dict value TriggerTypeMapping)) (raise ValueNotSupportedException);;
  let* sim := simulating in
  when (negb sim)
    (let* code := dict_get TriggerTypeMapping value in
     _write ("TTYP " +:+ code);;
     when (Py.eq_str value "ac_line") (_write "TSRC LINE"));;
  set_attr "trigger_type" value;;
  _set_cache_valid true "trigger_type" None.

Definition _get_trigger_continuous : M pyval :=
  let* sim := simulating in
  let* valid := _get_cache_valid "trigger_continuous" None in
  when (negb sim && negb valid)
    (let* reply := _ask "TRMD?" in
     let value := PyStr.lower reply in
     set_attr "trigger_continuous"
       (PBool (String.eqb value "auto" || String.eqb value "endless"));;
     _set_cache_valid true "trigger_continuous" None);;
  get_attr "trigger_continuous".

Definition _set_trigger_continuous (value : pyval) : M unit :=
  let value := Py.bool value in
  let* sim := simulating in
  when (negb sim) (if value then _write "RUN" else _write "STOP");;
  set_attr "trigger_continuous" (PBool value);;
  _set_cache_valid true "trigger_continuous" None.

(** *** Measurement *)

Definition _measurement_abort : M unit := mret tt.

Definition _measurement_auto_setup : M unit :=
  let* sim := simulating in
  when (negb sim) (_write "ASET").

Definition _measurement_initiate (wait : bool) : M unit :=
  let* sim := simulating in
  when (negb sim)
    ((if wait then _write "WSGL?" else _write "WSGL");;
     _set_cache_valid false "trigger_continuous" None).

(** [pre[k].split('=')[1].lstrip()] *)
Definition preamble_field (pre : list string) (k : nat) : result string :=
  match pre !! k with
  | Some field =>
      match PyStr.split "=" field !! 1%nat with
      | Some value => Ok (PyStr.lstrip value)
      | None => Raise IndexError
      end
  | None => Raise IndexError
  end.

(** [struct.unpack(">H", raw_data[i*2:i*2+2])[0]] *)
Definition unpack_word (raw_data : list byte) (i : nat) : result Z :=
  match firstn 2 (skipn (i * 2) raw_data) with
  | [hi; lo] => Ok (256 * Z.of_N (Byte.to_N hi) + Z.of_N (Byte.to_N lo))
  | _ => Raise StructError
  end.

(** The body of the loop of [_measurement_fetch_waveform] for sample [i]. *)
Definition waveform_point (xincrement xorigin yincrement yorigin : float)
    (raw_data : list byte) (i : nat) : result (float * float) :=
  match Py.float (PInt (Z.of_nat i)) with
  | Ok fi =>
      let x := (fi * xincrement + xorigin)%float in
      match unpack_word raw_data i with
      | Ok yval =>
          match Py.float (PInt yval) with
          | Ok fy => Ok (x, (fy * yincrement + yorigin)%float)
          | Raise e => Raise e
          end
      | Raise e => Raise e
      end
  | Raise e => Raise e
  end.

(** [for i in range(...): data.append(f(i))], stopping at the first
    exception. *)
Fixpoint for_range {A : Type} (f : nat -> result A) (indices : list nat)
    : result (list A) :=
  match indices with
  | [] => Ok []
  | i :: rest =>
      match f i with
      | Ok a =>
          match for_range f rest with
          | Ok data => Ok (a :: data)
          | Raise e => Raise e
          end
      | Raise e => Raise e
      end
  end.

Definition _measurement_fetch_waveform (index : pyval) : M (list (float * float)) :=
  let* names := read_state channel_name in
  let* index := get_index names index in
  let* sim := simulating in
  if sim then mret []
  else
    _write "DTFORM WORD";;
    _write "DTBORD H/L";;
    _write "DTSTART 0";;
    _write "DTPOINTS 500K";;
    let* name := display_name index in
    _write ("WAVESRC " +:+ name);;
    (* Read preamble *)
    let* reply := _ask "DTINF?" in
    let pre := PyStr.split "," reply in
    let* count := read_state channel_count in
    let* divisions := read_state horizontal_divisions in
    let* field := lift (preamble_field pre (2 + 4 * count + 5)) in
    let* points := lift (Py.int (PStr field)) in
    let* field := lift (preamble_field pre (2 + 4 * count + 2)) in
    let* xincrement := lift (_suffixed_string_to_float (PyStr.rstrip "s" field)) in
    let* field := lift (preamble_field pre (2 + 4 * count + 2)) in
    let* tdiv := lift (_suffixed_string_to_float (PyStr.rstrip "s" field)) in
    let* field := lift (preamble_field pre (2 + 4 * count + 3)) in
    let* trigdelay := lift (_suffixed_string_to_float (PyStr.rstrip "s" field)) in
    let* product := lift (Py.mul_float tdiv (PInt divisions)) in
    let xorigin := (- (product / 2 + trigdelay))%float in
    let* field := lift (preamble_field pre (2 + 4 * index + 2)) in
    let* yincrement := lift (_suffixed_string_to_float (PyStr.rstrip "V" field)) in
    let* field := lift (preamble_field pre (2 + 4 * index + 3)) in
    let* yorigin := lift (_suffixed_string_to_float (PyStr.rstrip "V" field)) in
    (* Probe ratio is not taken into account in the info from DTINF *)
    let* attenuation := _get_channel_probe_attenuation (PInt (Z.of_nat index)) in
    let* yincrement := lift (Py.truediv (PFloat yincrement) attenuation) in
    let* attenuation := _get_channel_probe_attenuation (PInt (Z.of_nat index)) in
    let* yorigin := lift (Py.truediv (PFloat yorigin) attenuation) in
    _write "DTWAVE?";;
    (* Read waveform data *)
    let* raw_data := _read_ieee_block in
    (* Split out points and convert to time and voltage pairs *)
    lift (for_range (waveform_point xincrement xorigin yincrement yorigin raw_data)
            (seq 0 (Z.to_nat points))).

Definition _measurement_read_waveform (index : pyval) (maximum_time : pyval)
    : M (list (float * float)) :=
  _measurement_initiate true;;
  _measurement_fetch_waveform index.

(** The loop over [self._measurement_slots.items()]: the slot it selects
    and the flag [must_configure]. *)
Fixpoint scan_slots (request : string * string) (slots : list (slot_key * slot_value))
    (selected_slot : slot_key) : slot_key * bool :=
  match slots with
  | [] => (selected_slot, true)
  | (slot, value) :: rest =>
      (* If a slot is already configured for our exact measurement, use it
         and stop looking *)
      if decide (value = Some request) then (slot, false)
      (* If a slot is available (not configured), we might use it, but keep
         looking for better *)
      else if decide (value = None) then scan_slots request rest slot
      (* If nothing better is found, we'll just have to use this one anyway *)
      else if decide (selected_slot = None) then scan_slots request rest slot
      else scan_slots request rest selected_slot
  end.

(** [d[k] = v] on a dictionary: the entry of an existing key is replaced in
    place, a new key is added last. *)
Fixpoint slots_set (k : slot_key) (v : slot_value) (d : list (slot_key * slot_value))
    : list (slot_key * slot_value) :=
  match d with
  | [] => [(k, v)]
  | (k', v') :: rest =>
      if decide (k' = k) then (k', v) :: rest else (k', v') :: slots_set k v rest
  end.

Fixpoint slots_get (k : slot_key) (d : list (slot_key * slot_value)) : option slot_value :=
  match d with
  | [] => None
  | (k', v') :: rest => if decide (k' = k) then Some v' else slots_get k rest
  end.

(** [self._measurement_slots[slot] = assignment] *)
Definition set_measurement_slot (slot : slot_key) (assignment : string * string) : M unit :=
  fun st => (Ok tt, with_measurement_slots (slots_set slot (Some assignment)) st).

(** ["%s" % slot] *)
Definition slot_text (slot : slot_key) : string :=
  match slot with
  | Some s => s
  | None => "None"
  end.

Definition _measurement_fetch_waveform_measurement
    (index measurement_function : pyval) : M pyval :=
  let* names := read_state channel_name in
  let* index := get_index names index in
  when (negb (in_dict measurement_function MeasurementFunctionMapping))
    (raise ValueNotSupportedException);;
  let* measurement_function := dict_get MeasurementFunctionMapping measurement_function in
  let* sim := simulating in
  if negb sim then
    let* name := display_name index in
    let* slots := read_state measurement_slots in
    let '(selected_slot, must_configure) :=
      scan_slots (name, measurement_function) slots None in
    (* Configure the measurement slot if it wasn't already just as we need *)
    when must_configure
      (_write "MDSP ON";;
       _write "MINMAX OFF";;
       let* name := display_name index in
       set_measurement_slot selected_slot (name, measurement_function);;
       _write ("DIRM " +:+ slot_text selected_slot);;
       let* slots := read_state measurement_slots in
       let* assigned :=
         match slots_get selected_slot slots with
         | Some (Some assigned) => mret assigned
         | Some None => raise TypeError
         | None => raise KeyError
         end in
       _write ("MSEL " +:+ fst assigned +:+ ", " +:+ snd assigned);;
       (* Wait half a second so the measurement has at least a small chance
          to be computed *)
       sleep 0.5%float);;
    let* reply := _ask ("MSR" +:+ slot_text selected_slot +:+ "?") in
    let* field := nth_or_raise (PyStr.split "," reply) 0 in
    let* value := lift (Py.float (PStr field)) in
    if PrimFloat.eqb value 9.91e37 then
      let* nan := lift (Py.float (PStr "NaN")) in mret (PFloat nan)
    else mret (PFloat value)
  else mret (PInt 0).

Definition _measurement_read_waveform_measurement
    (index measurement_function : pyval) : M pyval :=
  _measurement_initiate true;;
  _measurement_fetch_waveform_measurement index measurement_function.

(** [__init__] followed by [_init_channels]: the attributes this class
    sets; [simulate] and the instrument come from the caller. *)
Definition __init__ (simulate : bool) (dev : instrument) : driver :=
  snd (_init_channels
    {| driver_operation_simulate := simulate;
       channel_count := 4;
       channel_name := [];
       channel_command_name := [];
       horizontal_divisions := 10;
       vertical_divisions := 8;
       attrs := list_to_map
         [("memory_size", PInt 6);
          ("bandwidth", PFloat 500e6);
          ("timebase_mode", PStr "main");
          ("timebase_position", PFloat 0);
          ("timebase_range", PFloat 1e-3);
          ("timebase_scale", PFloat 100e-6);
          ("display_vectors", PBool true);
          ("identity_description",
           PStr "Lecroy WaveJet 300/300A series IVI oscilloscope driver");
          ("identity_identifier", PStr "");
          ("identity_revision", PStr "");
          ("identity_vendor", PStr "");
          ("identity_instrument_manufacturer", PStr "Teledyne LeCroy");
          ("identity_instrument_model", PStr "");
          ("identity_instrument_firmware_revision", PStr "");
          ("identity_specification_major_version", PInt 4);
          ("identity_specification_minor_version", PInt 1)];
       channel_attrs := ∅;
       cache_valid := ∅;
       measurement_slots :=
         [(Some "A", None); (Some "B", None); (Some "C", None); (Some "D", None)];
       trace := [];
       device := dev |}).

(** * The measurement-slot allocator *)

Definition holds (request : string * string) (entry : slot_key * slot_value) : bool :=
  bool_decide (entry.2 = Some request).

Definition is_free (entry : slot_key * slot_value) : bool :=
  bool_decide (entry.2 = None).

(** The selection as the specification words it: a slot that holds the
    request; otherwise the first free slot of the scan; otherwise the
    last slot of the scan. *)
Definition selection_first_free_last_taken (request : string * string)
    (slots : list (slot_key * slot_value)) : slot_key :=
  match List.find (holds request) slots with
  | Some entry => entry.1
  | None =>
      match List.find is_free slots with
      | Some entry => entry.1
      | None => match last slots with Some entry => entry.1 | None => None end
      end
  end.

(** The selection the loop computes: a slot that holds the request;
    otherwise the last free slot of the scan; otherwise its first slot. *)
Definition selection_last_free_first_taken (request : string * string)
    (slots : list (slot_key * slot_value)) : slot_key * bool :=
  match List.find (holds request) slots with
  | Some entry => (entry.1, false)
  | None =>
      match List.find is_free (rev slots) with
      | Some entry => (entry.1, true)
      | None => (match slots with entry :: _ => entry.1 | [] => None end, true)
      end
  end.


(** The engineering suffixes of instrument replies and their factors. *)
Definition engineering_suffixes : list (ascii * float) :=
  [("n"%char, 1e-9%float); ("u"%char, 1e-6%float); ("m"%char, 1e-3%float);
   ("k"%char, 1e3%float); ("K"%char, 1e3%float); ("M"%char, 1e6%float)].

(** The string carries none of the engineering suffixes. *)
Definition unsuffixed (s : string) : Prop :=
  forall c factor, In (c, factor) engineering_suffixes -> PyStr.endswith c s = false.

(** The driver object after the configuration of [slot] for the pair
    [assignment]: the four commands, the new assignment and the settle
    delay. *)
Definition configured (slot : slot_key) (assignment : string * string) (st : driver)
    : driver :=
  with_event (Sleep 0.5%float)
    (with_event (Write ("MSEL " +:+ fst assignment +:+ ", " +:+ snd assignment))
       (with_event (Write ("DIRM " +:+ slot_text slot))
          (with_measurement_slots (slots_set slot (Some assignment))
             (with_event (Write "MINMAX OFF") (with_event (Write "MDSP ON") st))))).

(** The big-endian unsigned 16-bit integer at a byte offset of a block. *)
Definition big_endian_word (block : list byte) (offset : nat) : option Z :=
  match block !! offset, block !! S offset with
  | Some hi, Some lo => Some (256 * Z.of_N (Byte.to_N hi) + Z.of_N (Byte.to_N lo))
  | _, _ => None
  end.

(** [float(n)] for an integer within the range of the floats. *)
Definition float_of_int (n : Z) : float := PyFloat.of_scaled n 0 false.

(** The sentinel mapping applied to the first comma-separated field of a
    reply. *)
Definition measurement_value (reply : string) : result pyval :=
  match PyStr.split "," reply with
  | field :: _ =>
      match Py.float (PStr field) with
      | Ok value => Ok (PFloat (if PrimFloat.eqb value 9.91e37 then nan else value))
      | Raise e => Raise e
      end
  | [] => Raise IndexError
  end.

(** ** Sample instruments and driver objects *)

(** An instrument that answers a query by looking the command up in a
    table, with a default reply, and always sends the same block. *)
Definition scripted_instrument (answers : list (string * string)) (default : string)
    (block : list byte) : instrument :=
  {| ask_reply := fun _ command =>
       match dict_find command answers with
       | Some reply => reply
       | None => default
       end;
     read_reply := fun _ => default;
     block_reply := fun _ => block |}.

(** The per-channel lists of the base classes, which [__init__] of this
    class inherits, filled with sample values for [n] channels. *)
Definition with_sample_channels (n : nat) (st : driver) : driver :=
  with_channel_attrs
    (fun m =>
       <["channel_enabled" := repeat (PBool false) n]>
         (<["channel_input_impedance" := repeat (PInt 1000000) n]>
            (<["channel_input_frequency_max" := repeat (PFloat 500e6) n]>
               (<["channel_probe_attenuation" := repeat (PFloat 1) n]>
                  (<["channel_probe_attenuation_auto" := repeat (PBool false) n]>
                     (<["channel_coupling" := repeat (PStr "ac") n]>
                        (<["channel_offset" := repeat (PFloat 0) n]>
                           (<["channel_range" := repeat (PFloat 1) n]> m))))))))
    st.

Definition sample_driver (simulate : bool) (dev : instrument) : driver :=
  with_attrs
    (fun m =>
       <["acquisition_type" := PStr "normal"]>
         (<["acquisition_number_of_points_minimum" := PInt 0]>
            (<["acquisition_number_of_averages" := PInt 1]>
               (<["acquisition_sample_mode" := PStr "real_time"]>
                  (<["trigger_coupling" := PStr "dc"]>
                     (<["trigger_holdoff" := PFloat 0]>
                        (<["trigger_level" := PFloat 0]>
                           (<["trigger_edge_slope" := PStr "positive"]>
                              (<["trigger_source" := PStr ""]>
                                 (<["trigger_type" := PStr "edge"]>
                                    (<["trigger_continuous" := PBool false]> m)))))))))))
    (with_sample_channels 4 (__init__ simulate dev)).

(** ** The attribute table

    The properties of the driver with a setter, as [ivi.add_property] and
    the base classes bind them to the accessor methods.  A global
    attribute ignores the channel selector. *)

Inductive attribute :=
| TimebaseMode | TimebasePosition | TimebaseRange | TimebaseScale
| DisplayVectors
| AcquisitionType | AcquisitionNumberOfPointsMinimum | AcquisitionNumberOfAverages
| AcquisitionSampleMode
| ChannelEnabled | ChannelInputImpedance | ChannelInputFrequencyMax
| ChannelProbeAttenuation | ChannelProbeAttenuationAuto | ChannelBwLimit
| ChannelCoupling | ChannelOffset | ChannelRange | ChannelScale
| TriggerCoupling | TriggerHoldoff | TriggerLevel | TriggerEdgeSlope
| TriggerSource | TriggerType | TriggerContinuous.

Definition setter (a : attribute) (index value : pyval) : M unit :=
  match a with
  | TimebaseMode => _set_timebase_mode value
  | TimebasePosition => _set_timebase_position value
  | TimebaseRange => _set_timebase_range value
  | TimebaseScale => _set_timebase_scale value
  | DisplayVectors => _set_display_vectors value
  | AcquisitionType => _set_acquisition_type value
  | AcquisitionNumberOfPointsMinimum => _set_acquisition_number_of_points_minimum value
  | AcquisitionNumberOfAverages => _set_acquisition_number_of_averages value
  | AcquisitionSampleMode => _set_acquisition_sample_mode value
  | ChannelEnabled => _set_channel_enabled index value
  | ChannelInputImpedance => _set_channel_input_impedance index value
  | ChannelInputFrequencyMax => _set_channel_input_frequency_max index value
  | ChannelProbeAttenuation => _set_channel_probe_attenuation index value
  | ChannelProbeAttenuationAuto => _set_channel_probe_attenuation_auto index value
  | ChannelBwLimit => _set_channel_bw_limit index value
  | ChannelCoupling => _set_channel_coupling index value
  | ChannelOffset => _set_channel_offset index value
  | ChannelRange => _set_channel_range index value
  | ChannelScale => _set_channel_scale index value
  | TriggerCoupling => _set_trigger_coupling value
  | TriggerHoldoff => _set_trigger_holdoff value
  | TriggerLevel => _set_trigger_level value
  | TriggerEdgeSlope => _set_trigger_edge_slope value
  | TriggerSource => _set_trigger_source value
  | TriggerType => _set_trigger_type value
  | TriggerContinuous => _set_trigger_continuous value
  end.

Definition getter (a : attribute) (index : pyval) : M pyval :=
  match a with
  | TimebaseMode => _get_timebase_mode
  | TimebasePosition => _get_timebase_position
  | TimebaseRange => _get_timebase_range
  | TimebaseScale => _get_timebase_scale
  | DisplayVectors => _get_display_vectors
  | AcquisitionType => _get_acquisition_type
  | AcquisitionNumberOfPointsMinimum => _get_acquisition_number_of_points_minimum
  | AcquisitionNumberOfAverages => _get_acquisition_number_of_averages
  | AcquisitionSampleMode => _get_acquisition_sample_mode
  | ChannelEnabled => _get_channel_enabled index
  | ChannelInputImpedance => _get_channel_input_impedance index
  | ChannelInputFrequencyMax => _get_channel_input_frequency_max index
  | ChannelProbeAttenuation => _get_channel_probe_attenuation index
  | ChannelProbeAttenuationAuto => _get_channel_probe_attenuation_auto index
  | ChannelBwLimit => _get_channel_bw_limit index
  | ChannelCoupling => _get_channel_coupling index
  | ChannelOffset => _get_channel_offset index
  | ChannelRange => _get_channel_range index
  | ChannelScale => _get_channel_scale index
  | TriggerCoupling => _get_trigger_coupling
  | TriggerHoldoff => _get_trigger_holdoff
  | TriggerLevel => _get_trigger_level
  | TriggerEdgeSlope => _get_trigger_edge_slope
  | TriggerSource => _get_trigger_source
  | TriggerType => _get_trigger_type
  | TriggerContinuous => _get_trigger_continuous
  end.

(** The exceptions that report a caller-supplied value outside the legal
    domain. *)
Definition validation_error (e : exn) : bool :=
  match e with
  | ValueNotSupportedException | OutOfRangeException | UnknownPhysicalNameException
  | SelectorRangeException | SelectorNameException | Exception _ => true
  | _ => false
  end.

(** The values outside the legal domain of an attribute: a string that is
    no key of the enumeration, a bandwidth limit that is none of the three
    filters, an average count outside the supported ones, an impedance that
    is neither 1000000 nor 50 or is 50 while the cached coupling is not
    'dc', a trigger source that is neither external nor a channel. *)
Definition rejected (a : attribute) (st : driver) (index value : pyval) : Prop :=
  match a with
  | TimebaseMode => in_dict value TimebaseModeMapping = false
  | AcquisitionType => in_dict value AcquisitionTypeMapping = false
  | AcquisitionSampleMode => in_dict value SampleModeMapping = false
  | TriggerCoupling => in_dict value TriggerCouplingMapping = false
  | TriggerEdgeSlope => in_dict value SlopeMapping = false
  | TriggerType => in_dict value TriggerTypeMapping = false
  | ChannelCoupling => in_dict value VerticalCouplingMapping = false
  | ChannelBwLimit =>
      exists s, value = PStr s /\
                existsb (String.eqb (PyStr.lower s)) ["full"; "20m"; "100m"] = false
  | AcquisitionNumberOfAverages =>
      exists n, Py.int value = Ok n /\
                existsb (Z.eqb n) AcquisitionAverageCount = false
  | ChannelInputImpedance =>
      exists x, Py.float value = Ok x /\
                PrimFloat.eqb x 1000000 = false /\
                (PrimFloat.eqb x 50 = false \/
                 exists i couplings coupling,
                   get_index (channel_name st) index st = (Ok i, st) /\
                   channel_attrs st !! "channel_coupling" = Some couplings /\
                   couplings !! i = Some coupling /\
                   Py.eq_str coupling "dc" = false)
  | TriggerSource =>
      String.eqb (PyStr.lower (Py.str value)) "external" = false /\
      existsb (String.eqb (Py.str value)) (channel_name st) = false
  | _ => False
  end.

(** The attributes whose setter keeps the written value in memory; the
    setters of the scales (and of the ranges, which delegate to them) do
    not. *)
Definition keeps_written_value (a : attribute) : bool :=
  match a with
  | TimebaseRange | TimebaseScale | ChannelRange | ChannelScale => false
  | _ => true
  end.

(** The attributes that take a channel selector. *)
Definition per_channel (a : attribute) : bool :=
  match a with
  | ChannelEnabled | ChannelInputImpedance | ChannelInputFrequencyMax
  | ChannelProbeAttenuation | ChannelProbeAttenuationAuto | ChannelBwLimit
  | ChannelCoupling | ChannelOffset | ChannelRange | ChannelScale => true
  | _ => false
  end.

(** The value a setter keeps for the value it is given: the value itself,
    converted with [float], [int], [bool] or [str] where the setter
    converts; a boolean bandwidth limit becomes the name of the filter, the
    external trigger source becomes the instrument's name for it, and
    probe-attenuation-auto keeps the mode word sent to the instrument. *)
Definition kept_value (a : attribute) (value : pyval) : option pyval :=
  match a with
  | TimebasePosition | ChannelInputImpedance | ChannelInputFrequencyMax
  | ChannelOffset | TriggerHoldoff | TriggerLevel =>
      match Py.float value with Ok x => Some (PFloat x) | Raise _ => None end
  | AcquisitionNumberOfPointsMinimum | AcquisitionNumberOfAverages
  | ChannelProbeAttenuation =>
      match Py.int value with Ok n => Some (PInt n) | Raise _ => None end
  | ChannelEnabled | TriggerContinuous => Some (PBool (Py.bool value))
  | ChannelBwLimit =>
      Some (match value with
            | PBool b => PStr (if b then "20m" else "full")
            | _ => value
            end)
  | TriggerSource =>
      Some (PStr (if String.eqb (PyStr.lower (Py.str value)) "external"
                  then "EXT10" else Py.str value))
  | ChannelProbeAttenuationAuto =>
      Some (PStr (if Py.bool value then "auto" else "manual"))
  | _ => Some value
  end.

(** The number of queries in a stretch of traffic. *)
Definition queries (events : list event) : nat :=
  length (List.filter (fun e => match e with Ask _ _ => true | _ => false end) events).

(** The driver object after the commands that set the transfer up and
    select the source channel. *)
Definition transfer_selected (name : string) (st : driver) : driver :=
  with_event (Write ("WAVESRC " +:+ name))
    (with_event (Write "DTPOINTS 500K")
       (with_event (Write "DTSTART 0")
          (with_event (Write "DTBORD H/L")
             (with_event (Write "DTFORM WORD") st)))).

(** A preamble for four channels: two header fields, four fields per
    channel, then the global fields. *)
Definition sample_preamble : string :=
  "WJ314,DTINF,C1=ON,CPL=DC1M,VDIV= 2mV,OFST= -1V,C2=OFF,CPL=DC1M,VDIV= 1V,OFST= 0V," +:+
  "C3=OFF,CPL=DC1M,VDIV= 1V,OFST= 0V,C4=OFF,CPL=DC1M,VDIV= 1V,OFST= 0V," +:+
  "ACQ=NORMAL,MLEN=500,TDIV= 1us,TRDL= 0s,AVG=OFF,PTS= 2".

Definition sample_scope : instrument :=
  scripted_instrument [("DTINF?", sample_preamble); ("C1:PROBE?", "manual,10")] ""
    ["000"%byte; "000"%byte; "001"%byte; "000"%byte].
(** * The laws of sequencing *)

Lemma bind_inv {A B : Type} (m : M A) (k : A -> M B) st r st' :
  bind m k st = (r, st') ->
  (exists a st1, m st = (Ok a, st1) /\ k a st1 = (r, st')) \/
  (exists e, m st = (Raise e, st') /\ r = Raise e).
Proof.
  unfold bind. destruct (m st) as [[a|e] st1]; intros H.
  - left. eauto.
  - right. injection H as <- <-. eauto.
Qed.

Lemma bind_ok {A B : Type} (m : M A) (k : A -> M B) st a st1 :
  m st = (Ok a, st1) -> bind m k st = k a st1.
Proof. unfold bind. by intros ->. Qed.

Lemma bind_raise {A B : Type} (m : M A) (k : A -> M B) st e st1 :
  m st = (Raise e, st1) -> bind m k st = (Raise e, st1).
Proof. unfold bind. by intros ->. Qed.


(** * The measurement-slot allocator: the scan *)

Section Allocator.

Implicit Types (request : string * string) (slots : list (slot_key * slot_value)).

Lemma find_snoc {A : Type} (f : A -> bool) (l : list A) (a : A) :
  List.find f (l ++ [a]) =
  match List.find f l with Some x => Some x | None => if f a then Some a else None end.
Proof.
  induction l as [|x l IH]; simpl.
  - reflexivity.
  - destruct (f x); [reflexivity | exact IH].
Qed.

(** The loop from an arbitrary intermediate choice [sel]. *)
Lemma scan_slots_from request slots sel :
  Forall (fun entry => is_Some entry.1) slots ->
  scan_slots request slots sel =
  match List.find (holds request) slots with
  | Some entry => (entry.1, false)
  | None =>
      match List.find is_free (rev slots) with
      | Some entry => (entry.1, true)
      | None =>
          (match sel with
           | Some _ => sel
           | None => match slots with entry :: _ => entry.1 | [] => None end
           end, true)
      end
  end.
Proof.
  intros Hkeys. revert sel.
  induction Hkeys as [|[k v] slots [name Hk] _ IH]; intros sel; simpl.
  - by destruct sel.
  - simpl in Hk; subst k.
    change (holds request (Some name, v)) with (bool_decide (v = Some request)).
    destruct (decide (v = Some request)) as [->|Hv].
    + by rewrite bool_decide_eq_true_2.
    + rewrite bool_decide_eq_false_2 by done.
      rewrite find_snoc.
      change (is_free (Some name, v)) with (bool_decide (v = None)).
      destruct (decide (v = None)) as [->|Hfree].
      * rewrite IH. rewrite bool_decide_eq_true_2 by done.
        destruct (List.find (holds request) slots); [reflexivity|].
        destruct (List.find is_free (rev slots)); reflexivity.
      * rewrite bool_decide_eq_false_2 by done.
        destruct (decide (sel = None)) as [->|Hsel]; rewrite IH;
          (destruct (List.find (holds request) slots); [reflexivity|]);
          (destruct (List.find is_free (rev slots)); [reflexivity|]).
        -- reflexivity.
        -- by destruct sel.
Qed.

End Allocator.

(** C1, as stated, fails: with every slot free the loop ends on the last free
    slot [D], not on the first one [A]; and with every slot taken by other
    measurements it keeps the first slot [A], not the last one [D]. *)
Lemma scan_slots_not_first_free_last_taken :
  (scan_slots ("CH1", "freq")
     [(Some "A", None); (Some "B", None); (Some "C", None); (Some "D", None)] None).1
  <> selection_first_free_last_taken ("CH1", "freq")
       [(Some "A", None); (Some "B", None); (Some "C", None); (Some "D", None)]
  /\
  (scan_slots ("CH1", "freq")
     [(Some "A", Some ("CH2", "freq")); (Some "B", Some ("CH2", "max"));
      (Some "C", Some ("CH3", "min")); (Some "D", Some ("CH4", "top"))] None).1
  <> selection_first_free_last_taken ("CH1", "freq")
       [(Some "A", Some ("CH2", "freq")); (Some "B", Some ("CH2", "max"));
        (Some "C", Some ("CH3", "min")); (Some "D", Some ("CH4", "top"))].
Proof. split; vm_compute; discriminate. Qed.

(** C1, amended: one pass over the slot table in its order selects the
    first slot that already holds the requested pair, without
    reconfiguration; otherwise the last free slot of the scan; otherwise,
    when no slot holds the pair and none is free, the first slot of the
    scan, whose assignment is evicted. *)
Theorem scan_slots_selection (request : string * string)
    (slots : list (slot_key * slot_value)) :
  Forall (fun entry => is_Some entry.1) slots ->
  scan_slots request slots None = selection_last_free_first_taken request slots.
Proof.
  intros Hkeys. rewrite scan_slots_from by exact Hkeys.
  reflexivity.
Qed.

Lemma scan_slots_selection_witness :
  Forall (fun entry : slot_key * slot_value => is_Some entry.1)
    [(Some "A", Some ("CH2", "freq")); (Some "B", None);
     (Some "C", None); (Some "D", Some ("CH4", "top"))] /\
  scan_slots ("CH1", "freq")
    [(Some "A", Some ("CH2", "freq")); (Some "B", None);
     (Some "C", None); (Some "D", Some ("CH4", "top"))] None = (Some "C", true).
Proof.
  assert (Hkeys : Forall (fun entry : slot_key * slot_value => is_Some entry.1)
    [(Some "A", Some ("CH2", "freq")); (Some "B", None);
     (Some "C", None); (Some "D", Some ("CH4", "top"))])
    by (repeat constructor; eexists; reflexivity).
  split; [exact Hkeys|].
  rewrite (scan_slots_selection ("CH1", "freq") _ Hkeys). reflexivity.
Defined.



(** * Strings *)

Section Strings.

Lemma chars_str l : PyStr.chars (PyStr.str l) = l.
Proof. apply list_ascii_of_string_of_list_ascii. Qed.

Lemma str_chars s : PyStr.str (PyStr.chars s) = s.
Proof. apply string_of_list_ascii_of_string. Qed.

Lemma chars_app s t : PyStr.chars (s +:+ t) = PyStr.chars s ++ PyStr.chars t.
Proof.
  induction s as [|c s IH]; simpl.
  - reflexivity.
  - unfold PyStr.chars in *. simpl. by rewrite IH.
Qed.

Lemma chars_snoc s c : PyStr.chars (s +:+ String c "") = PyStr.chars s ++ [c].
Proof. by rewrite chars_app. Qed.

Lemma endswith_snoc c d s :
  PyStr.endswith c (s +:+ String d "") = Ascii.eqb d c.
Proof.
  unfold PyStr.endswith. rewrite chars_snoc, rev_app_distr. reflexivity.
Qed.

Lemma lower_snoc s c :
  PyStr.lower (s +:+ String c "") = PyStr.lower s +:+ String (PyStr.lower_char c) "".
Proof.
  unfold PyStr.lower. rewrite chars_snoc, map_app. simpl.
  rewrite <- (str_chars (PyStr.str (map PyStr.lower_char (PyStr.chars s)) +:+ _)).
  by rewrite chars_snoc, chars_str.
Qed.

(** Stripping a set of characters from the right removes a final
    character of the set and stops at a string that does not end in
    one. *)
Lemma rstrip_fixed set s :
  (forall c, PyStr.char_in c set = true -> PyStr.endswith c s = false) ->
  PyStr.rstrip set s = s.
Proof.
  intros Hend. unfold PyStr.rstrip.
  rewrite <- (str_chars s) at 2. f_equal.
  rewrite <- (rev_involutive (PyStr.chars s)) at 2. f_equal.
  specialize Hend. unfold PyStr.endswith in Hend.
  destruct (rev (PyStr.chars s)) as [|x l]; simpl; [reflexivity|].
  destruct (PyStr.char_in x set) eqn:Hx; [|reflexivity].
  specialize (Hend x Hx). unfold PyStr.ascii_eqb in Hend.
  by rewrite Ascii.eqb_refl in Hend.
Qed.

Lemma rstrip_snoc set s c :
  PyStr.char_in c set = true ->
  PyStr.rstrip set (s +:+ String c "") = PyStr.rstrip set s.
Proof.
  intros Hc. unfold PyStr.rstrip. rewrite chars_snoc, rev_app_distr. simpl.
  by rewrite Hc.
Qed.

End Strings.

(** * The suffix-scaled parser *)

Section Suffixes.

Lemma unsuffixed_rstrip set s :
  unsuffixed s ->
  (forall c, PyStr.char_in c set = true ->
             exists factor, In (c, factor) engineering_suffixes) ->
  PyStr.rstrip set s = s.
Proof.
  intros Hs Hset. apply rstrip_fixed. intros c Hc.
  destruct (Hset c Hc) as [factor Hin]. by apply (Hs c factor).
Qed.

Lemma char_in_suffix (set : string) :
  Forall (fun c => exists factor, In (c, factor) engineering_suffixes) (PyStr.chars set) ->
  forall c, PyStr.char_in c set = true ->
            exists factor, In (c, factor) engineering_suffixes.
Proof.
  unfold PyStr.char_in. intros Hall c Hc.
  apply existsb_exists in Hc as (x & Hx & Heq).
  unfold PyStr.ascii_eqb in Heq. apply Ascii.eqb_eq in Heq as ->.
  rewrite Forall_forall in Hall. apply Hall. by apply list_elem_of_In.
Qed.

Lemma lower_unsuffixed_k s :
  unsuffixed s -> PyStr.endswith "k" (PyStr.lower s) = false.
Proof.
  intros Hs. unfold PyStr.endswith, PyStr.lower. rewrite chars_str, <- map_rev.
  pose proof (Hs "k"%char _ ltac:(right; right; right; left; reflexivity)) as Hk.
  pose proof (Hs "K"%char _ ltac:(right; right; right; right; left; reflexivity)) as HK.
  unfold PyStr.endswith in Hk, HK.
  destruct (rev (PyStr.chars s)) as [|x l]; simpl; [reflexivity|].
  unfold PyStr.ascii_eqb in *.
  destruct x as [[] [] [] [] [] [] [] []]; try reflexivity; discriminate.
Qed.

End Suffixes.

(** C8: a reply made of a numeric prefix and one of the suffixes n, u, m, k,
    K, M parses to the value of the prefix times 1e-9, 1e-6, 1e-3, 1e3, 1e3,
    1e6 respectively; a reply that carries no such suffix parses to its
    plain float value. *)
Theorem suffixed_string_to_float_scales :
  (forall (prefix : string) (c : ascii) (factor x : float),
      In (c, factor) engineering_suffixes ->
      unsuffixed prefix ->
      Py.float (PStr prefix) = Ok x ->
      _suffixed_string_to_float (prefix +:+ String c "") = Ok (x * factor)%float) /\
  (forall s : string, unsuffixed s -> _suffixed_string_to_float s = Py.float (PStr s)).
Proof.
  split.
  - intros prefix c factor x Hin Hpre Hx.
    assert (Hstrip : forall set,
      Forall (fun c => exists factor, In (c, factor) engineering_suffixes)
        (PyStr.chars set) ->
      PyStr.char_in c set = true ->
      PyStr.rstrip set (prefix +:+ String c "") = prefix).
    { intros set Hset Hc. rewrite rstrip_snoc by exact Hc.
      apply unsuffixed_rstrip; [exact Hpre | by apply char_in_suffix]. }
    assert (Hall : forall l : list ascii,
      Forall (fun c => In c (map fst engineering_suffixes)) l ->
      Forall (fun c => exists factor, In (c, factor) engineering_suffixes) l).
    { intros l Hl. eapply Forall_impl; [exact Hl|]. intros a Ha.
      apply in_map_iff in Ha as ([a' f] & <- & Hf). by exists f. }
    unfold _suffixed_string_to_float.
    rewrite !endswith_snoc, lower_snoc, endswith_snoc.
    simpl in Hin.
    destruct Hin as [Heq|[Heq|[Heq|[Heq|[Heq|[Heq|[]]]]]]];
      injection Heq as <- <-; simpl;
      rewrite Hstrip, Hx;
      first [ reflexivity
            | apply Hall; repeat constructor; simpl; tauto ].
  - intros s Hs. unfold _suffixed_string_to_float.
    rewrite (Hs "n"%char _ ltac:(left; reflexivity)).
    rewrite (Hs "u"%char _ ltac:(right; left; reflexivity)).
    rewrite (Hs "m"%char _ ltac:(right; right; left; reflexivity)).
    rewrite (lower_unsuffixed_k s Hs).
    rewrite (Hs "M"%char _ ltac:(do 5 right; left; reflexivity)).
    reflexivity.
Qed.

Lemma suffixed_string_to_float_scales_witness :
  (In ("m"%char, 1e-3%float) engineering_suffixes /\
   unsuffixed "2.5" /\
   Py.float (PStr "2.5") = Ok 2.5%float /\
   _suffixed_string_to_float "2.5m" = Ok 0.0025%float) /\
  (unsuffixed "0.5" /\ _suffixed_string_to_float "0.5" = Ok 0.5%float).
Proof.
  assert (Hplain : forall s, PyStr.endswith "n" s = false -> PyStr.endswith "u" s = false ->
    PyStr.endswith "m" s = false -> PyStr.endswith "k" s = false ->
    PyStr.endswith "K" s = false -> PyStr.endswith "M" s = false -> unsuffixed s).
  { intros s Hn Hu Hm Hk HK HM c factor Hin. simpl in Hin.
    destruct Hin as [Heq|[Heq|[Heq|[Heq|[Heq|[Heq|[]]]]]]];
      injection Heq as <- <-; assumption. }
  assert (H25 : unsuffixed "2.5") by (apply Hplain; reflexivity).
  assert (H05 : unsuffixed "0.5") by (apply Hplain; reflexivity).
  assert (Hin : In ("m"%char, 1e-3%float) engineering_suffixes)
    by (simpl; tauto).
  assert (Hx : Py.float (PStr "2.5") = Ok 2.5%float) by (vm_compute; reflexivity).
  refine (conj (conj Hin (conj H25 (conj Hx _))) (conj H05 _)).
  - exact (proj1 suffixed_string_to_float_scales "2.5" "m"%char _ _ Hin H25 Hx).
  - rewrite (proj2 suffixed_string_to_float_scales "0.5" H05).
    vm_compute; reflexivity.
Defined.

(** * Symbolic execution of methods *)

Ltac unfold_monad :=
  unfold mbind, M_bind, bind, when, mret, M_ret, raise, lift, simulating, read_state,
    _write, _write_ieee_block, _ask, _read, _read_ieee_block, sleep,
    get_attr, set_attr, get_item, set_item, nth_or_raise,
    _get_cache_valid, _set_cache_valid, invalidate_all_attributes,
    command_name, display_name, dict_get, in_dict, set_measurement_slot in *.

Ltac run := repeat (progress (unfold_monad; simpl in *)).

Lemma index_of_lt s names k : index_of s names = Some k -> (k < length names)%nat.
Proof.
  revert k. induction names as [|x names IH]; simpl; [discriminate|].
  intros k. destruct (String.eqb x s).
  - intros [= <-]. lia.
  - destruct (index_of s names); [|discriminate]. simpl.
    intros [= <-]. specialize (IH _ eq_refl). lia.
Qed.

(** A resolved selector is within the bounds of the list, and resolving
    leaves the driver untouched. *)
Lemma get_index_inv names index st r st' :
  get_index names index st = (r, st') ->
  st' = st /\ forall i, r = Ok i -> (i < length names)%nat.
Proof.
  unfold get_index.
  destruct index as [| |n| |s]; try (intros [= <- <-]; split; [done|discriminate]).
  - destruct (andb _ _) eqn:Hb; intros [= <- <-]; (split; [done|]); [|discriminate].
    intros i [= <-]. apply andb_prop in Hb as [H0 H1]. lia.
  - destruct (index_of s names) as [k|] eqn:Hk; intros [= <- <-];
      (split; [done|]); [|discriminate].
    intros i [= <-]. by eapply index_of_lt.
Qed.

(** An index in bounds resolves to itself. *)
Lemma get_index_nat names (i : nat) st :
  (i < length names)%nat -> get_index names (PInt (Z.of_nat i)) st = (Ok i, st).
Proof.
  intros Hi. unfold get_index.
  replace (andb _ _) with true.
  - by rewrite Nat2Z.id.
  - symmetry. apply andb_true_intro. split; lia.
Qed.

Lemma slots_get_set k v d : slots_get k (slots_set k v d) = Some v.
Proof.
  induction d as [|[k' v'] d IH]; simpl.
  - by rewrite decide_True.
  - destruct (decide (k' = k)) as [->|Hne]; simpl.
    + by rewrite decide_True.
    + by rewrite decide_False.
Qed.

(** * Fetching a waveform measurement *)

(** In non-simulate mode a fetch with a known channel and a supported
    function configures the selected slot when the scan asks for it, queries
    that slot once and maps the reply. *)
Lemma fetch_measurement_run st index fn i name code :
  driver_operation_simulate st = false ->
  get_index (channel_name st) index st = (Ok i, st) ->
  channel_name st !! i = Some name ->
  dict_find fn MeasurementFunctionMapping = Some code ->
  let sel := scan_slots (name, code) (measurement_slots st) None in
  let st1 := if sel.2 then configured sel.1 (name, code) st else st in
  let command := "MSR" +:+ slot_text sel.1 +:+ "?" in
  let reply := ask_reply (device st) (trace st1) command in
  _measurement_fetch_waveform_measurement index (PStr fn) st =
    (measurement_value reply, with_event (Ask command reply) st1).
Proof.
  intros Hsim Hi Hname Hfn.
  unfold _measurement_fetch_waveform_measurement.
  unfold_monad. rewrite Hi, Hfn. simpl. rewrite Hsim. run.
  rewrite Hname. simpl.
  destruct (scan_slots (name, code) (measurement_slots st) None) as [sel cfg].
  unfold measurement_value.
  destruct cfg; simpl.
  - rewrite Hname. simpl. rewrite slots_get_set. simpl.
    unfold configured. simpl.
    destruct (PyStr.split "," _) as [|field rest]; simpl; [reflexivity|].
    destruct (Py.float (PStr field)) as [value|e]; [|reflexivity].
    by destruct (PrimFloat.eqb value _).
  - destruct (PyStr.split "," _) as [|field rest]; simpl; [reflexivity|].
    destruct (Py.float (PStr field)) as [value|e]; [|reflexivity].
    by destruct (PrimFloat.eqb value _).
Qed.

Lemma get_index_state names index st r st' st2 :
  get_index names index st = (r, st') -> get_index names index st2 = (r, st2).
Proof.
  unfold get_index.
  destruct index as [| |n| |s]; try (intros [= <- <-]; reflexivity).
  - destruct (andb _ _); intros [= <- <-]; reflexivity.
  - destruct (index_of s names); intros [= <- <-]; reflexivity.
Qed.

Lemma get_index_lookup names index st i st' :
  get_index names index st = (Ok i, st') -> exists name, names !! i = Some name.
Proof.
  intros H. apply get_index_inv in H as [_ H].
  apply lookup_lt_is_Some. by apply H.
Qed.

Lemma split_nonempty c s : exists field rest, PyStr.split c s = field :: rest.
Proof.
  unfold PyStr.split.
  assert (H : exists p ps, PyStr.split_chars c (PyStr.chars s) = p :: ps).
  { induction (PyStr.chars s) as [|x l IH]; simpl; [by eauto|].
    destruct (PyStr.ascii_eqb x c); [by eauto|].
    destruct IH as (p & ps & ->). by eauto. }
  destruct H as (p & ps & ->). simpl. by eauto.
Qed.

(** A slot configured for a request is the slot the next scan stops at. *)
Lemma scan_slots_after_set request slots :
  forall acc sel,
    scan_slots request slots acc = (sel, true) ->
    forall acc', scan_slots request (slots_set sel (Some request) slots) acc' = (sel, false).
Proof.
  induction slots as [|[k v] slots IH]; intros acc sel; simpl.
  - intros [= ->] acc'. by rewrite decide_True.
  - destruct (decide (v = Some request)); [discriminate|].
    intros Hscan acc'.
    destruct (decide (k = sel)) as [->|Hk]; simpl.
    + by rewrite decide_True.
    + rewrite decide_False by done.
      destruct (decide (v = None)); [by eapply IH|].
      destruct (decide (acc = None)), (decide (acc' = None)); by eapply IH.
Qed.

(** C7: in non-simulate mode the fetch queries the selected slot, parses
    the first comma-separated field of the reply as a float, and returns
    NaN when that value equals 9.91e37 and the value itself otherwise. *)
Theorem fetch_measurement_sentinel st index fn i code :
  driver_operation_simulate st = false ->
  get_index (channel_name st) index st = (Ok i, st) ->
  dict_find fn MeasurementFunctionMapping = Some code ->
  let outcome := _measurement_fetch_waveform_measurement index (PStr fn) st in
  exists command reply field rest,
    last (trace outcome.2) = Some (Ask command reply) /\
    PyStr.split "," reply = field :: rest /\
    forall value,
      Py.float (PStr field) = Ok value ->
      (PrimFloat.eqb value 9.91e37 = true -> outcome.1 = Ok (PFloat nan)) /\
      (PrimFloat.eqb value 9.91e37 = false -> outcome.1 = Ok (PFloat value)).
Proof.
  intros Hsim Hi Hfn.
  destruct (get_index_lookup _ _ _ _ _ Hi) as [name Hname].
  rewrite (fetch_measurement_run st index fn i name code Hsim Hi Hname Hfn).
  simpl.
  set (sel := scan_slots (name, code) (measurement_slots st) None).
  set (st1 := if sel.2 then configured sel.1 (name, code) st else st).
  set (command := "MSR" +:+ slot_text sel.1 +:+ "?").
  set (reply := ask_reply (device st) (trace st1) command).
  destruct (split_nonempty "," reply) as (field & rest & Hsplit).
  exists command, reply, field, rest.
  split; [by rewrite last_snoc|]. split; [exact Hsplit|].
  intros value Hvalue. unfold measurement_value.
  rewrite Hsplit, Hvalue.
  split; intros ->; reflexivity.
Qed.

(** C6: in non-simulate mode, requesting a supported (channel, function)
    pair twice in a row selects the same slot both times; the second call
    only queries that slot: it issues none of MDSP ON, MINMAX OFF, DIRM and
    MSEL, does not wait, and leaves the slot table as the first call left
    it. *)
Theorem fetch_measurement_twice st index fn i code :
  driver_operation_simulate st = false ->
  get_index (channel_name st) index st = (Ok i, st) ->
  dict_find fn MeasurementFunctionMapping = Some code ->
  let st1 := (_measurement_fetch_waveform_measurement index (PStr fn) st).2 in
  let st2 := (_measurement_fetch_waveform_measurement index (PStr fn) st1).2 in
  exists name slot reply1 reply2,
    channel_name st !! i = Some name /\
    (scan_slots (name, code) (measurement_slots st) None).1 = slot /\
    last (trace st1) = Some (Ask ("MSR" +:+ slot_text slot +:+ "?") reply1) /\
    scan_slots (name, code) (measurement_slots st1) None = (slot, false) /\
    st2 = with_event (Ask ("MSR" +:+ slot_text slot +:+ "?") reply2) st1.
Proof.
  intros Hsim Hi Hfn.
  destruct (get_index_lookup _ _ _ _ _ Hi) as [name Hname].
  rewrite (fetch_measurement_run st index fn i name code Hsim Hi Hname Hfn).
  simpl.
  destruct (scan_slots (name, code) (measurement_slots st) None) as [slot cfg] eqn:Hscan.
  simpl.
  set (st0 := if cfg then configured slot (name, code) st else st).
  set (command := "MSR" +:+ slot_text slot +:+ "?").
  set (reply1 := ask_reply (device st) (trace st0) command).
  set (st1 := with_event (Ask command reply1) st0).
  assert (Hsim1 : driver_operation_simulate st1 = false) by (by destruct cfg).
  assert (Hnames : channel_name st1 = channel_name st) by (by destruct cfg).
  assert (Hi1 : get_index (channel_name st1) index st1 = (Ok i, st1)).
  { rewrite Hnames. by eapply get_index_state. }
  assert (Hname1 : channel_name st1 !! i = Some name) by (by rewrite Hnames).
  assert (Hscan1 : scan_slots (name, code) (measurement_slots st1) None = (slot, false)).
  { destruct cfg; simpl.
    - by eapply scan_slots_after_set.
    - exact Hscan. }
  rewrite (fetch_measurement_run st1 index fn i name code Hsim1 Hi1 Hname1 Hfn).
  cbv zeta. rewrite Hscan1.
  exists name, slot, reply1, (ask_reply (device st1) (trace st1) command).
  split; [exact Hname|]. split; [by rewrite Hscan|].
  split; [by rewrite last_snoc|]. split; [exact Hscan1|].
  reflexivity.
Qed.

Lemma fetch_measurement_sentinel_witness :
  let st := sample_driver false (scripted_instrument [] "9.91E+37,OK" []) in
  driver_operation_simulate st = false /\
  get_index (channel_name st) (PStr "CH2") st = (Ok 1%nat, st) /\
  dict_find "frequency" MeasurementFunctionMapping = Some "freq" /\
  (_measurement_fetch_waveform_measurement (PStr "CH2") (PStr "frequency") st).1
  = Ok (PFloat nan).
Proof.
  set (st := sample_driver false (scripted_instrument [] "9.91E+37,OK" [])).
  assert (Hsim : driver_operation_simulate st = false) by reflexivity.
  assert (Hi : get_index (channel_name st) (PStr "CH2") st = (Ok 1%nat, st))
    by reflexivity.
  assert (Hfn : dict_find "frequency" MeasurementFunctionMapping = Some "freq")
    by reflexivity.
  refine (conj Hsim (conj Hi (conj Hfn _))).
  destruct (fetch_measurement_sentinel st (PStr "CH2") "frequency" 1 "freq" Hsim Hi Hfn)
    as (command & reply & field & rest & Hlast & Hsplit & Hvalue).
  assert (Hreply : reply = "9.91E+37,OK").
  { vm_compute in Hlast. by injection Hlast as _ <-. }
  subst reply.
  assert (Hfield : field = "9.91E+37").
  { vm_compute in Hsplit. by injection Hsplit as <- _. }
  subst field.
  apply (Hvalue 9.91e37%float); vm_compute; reflexivity.
Defined.

Lemma fetch_measurement_twice_witness :
  let st := sample_driver false (scripted_instrument [] "1.0E+03" []) in
  let st1 := (_measurement_fetch_waveform_measurement (PStr "CH1") (PStr "period") st).2 in
  let st2 := (_measurement_fetch_waveform_measurement (PStr "CH1") (PStr "period") st1).2 in
  driver_operation_simulate st = false /\
  get_index (channel_name st) (PStr "CH1") st = (Ok 0%nat, st) /\
  dict_find "period" MeasurementFunctionMapping = Some "period" /\
  exists name slot reply1 reply2,
    channel_name st !! 0%nat = Some name /\
    (scan_slots (name, "period") (measurement_slots st) None).1 = slot /\
    last (trace st1) = Some (Ask ("MSR" +:+ slot_text slot +:+ "?") reply1) /\
    scan_slots (name, "period") (measurement_slots st1) None = (slot, false) /\
    st2 = with_event (Ask ("MSR" +:+ slot_text slot +:+ "?") reply2) st1.
Proof.
  set (st := sample_driver false (scripted_instrument [] "1.0E+03" [])).
  assert (Hsim : driver_operation_simulate st = false) by reflexivity.
  assert (Hi : get_index (channel_name st) (PStr "CH1") st = (Ok 0%nat, st))
    by reflexivity.
  assert (Hfn : dict_find "period" MeasurementFunctionMapping = Some "period")
    by reflexivity.
  refine (conj Hsim (conj Hi (conj Hfn _))).
  exact (fetch_measurement_twice st (PStr "CH1") "period" 0 "period" Hsim Hi Hfn).
Defined.

(** * Channel input impedance *)

(** Float equality with a finite non-zero number is identity. *)
Lemma float_eqb_finite x y s m e :
  Prim2SF y = S754_finite s m e ->
  PrimFloat.eqb x y = true -> x = y.
Proof.
  intros Hy H. apply Prim2SF_inj. rewrite FloatAxioms.eqb_spec, Hy in H. rewrite Hy.
  unfold SFeqb, SFcompare in H.
  destruct (Prim2SF x) as [s'| s'| |s' m' e'];
    try (destruct s; discriminate); try (destruct s'; discriminate);
    try discriminate.
  destruct s, s'; try discriminate;
    (destruct (Z.compare_spec e' e); try discriminate; subst;
     destruct (Pos.compare_cont Eq m' m) eqn:Hc; try discriminate;
     apply Pos.compare_eq in Hc; subst; reflexivity).
Qed.

Lemma float_eqb_megohm x : PrimFloat.eqb x 1000000 = true -> x = 1000000%float.
Proof.
  intros H. eapply float_eqb_finite; [|exact H].
  vm_compute. reflexivity.
Qed.

(** C10: setting the input impedance of a channel to 1000000 ohms while its
    cached coupling is not 'dc' writes nothing to the instrument and still
    stores 1000000 in the impedance entry and marks it valid; and whenever
    the setter does write to the instrument, the cached coupling is 'dc'. *)
Theorem set_input_impedance_megohm :
  (forall st index value x i couplings coupling impedances,
      Py.float value = Ok x ->
      PrimFloat.eqb x 1000000 = true ->
      get_index (channel_name st) index st = (Ok i, st) ->
      channel_attrs st !! "channel_coupling" = Some couplings ->
      couplings !! i = Some coupling ->
      Py.eq_str coupling "dc" = false ->
      channel_attrs st !! "channel_input_impedance" = Some impedances ->
      (i < length impedances)%nat ->
      exists st',
        _set_channel_input_impedance index value st = (Ok tt, st') /\
        trace st' = trace st /\
        channel_attrs st' !! "channel_input_impedance"
          = Some (<[i := PFloat 1000000]> impedances) /\
        _get_cache_valid "channel_input_impedance" (Some i) st' = (Ok true, st')) /\
  (forall st index value outcome st',
      _set_channel_input_impedance index value st = (outcome, st') ->
      trace st' <> trace st ->
      exists i couplings coupling command,
        get_index (channel_name st) index st = (Ok i, st) /\
        channel_attrs st !! "channel_coupling" = Some couplings /\
        couplings !! i = Some coupling /\
        Py.eq_str coupling "dc" = true /\
        channel_command_name st !! i = Some command /\
        (trace st' = trace st ++ [Write (command +:+ ":CPL DC1M")] \/
         trace st' = trace st ++ [Write (command +:+ ":CPL DC50")])).
Proof.
  split.
  - intros st index value x i couplings coupling impedances
      Hx Heq Hi Hcs Hc Hdc Hzs Hlt.
    apply float_eqb_megohm in Heq as ->.
    unfold _set_channel_input_impedance. unfold_monad.
    rewrite Hx. simpl. rewrite Hi. simpl.
    destruct (driver_operation_simulate st); simpl.
    + rewrite Hzs. rewrite decide_True by done. simpl.
      eexists. split; [reflexivity|]. simpl.
      rewrite !lookup_insert_eq. done.
    + rewrite Hcs, Hc. simpl. rewrite Hdc. simpl.
      rewrite Hzs. rewrite decide_True by done. simpl.
      eexists. split; [reflexivity|]. simpl.
      rewrite !lookup_insert_eq. done.
  - intros st index value outcome st' Hrun Htrace.
    unfold _set_channel_input_impedance in Hrun. run.
    destruct (Py.float value) as [x|e]; simpl in Hrun; [|by simplify_eq].
    destruct (get_index (channel_name st) index st) as [[i|e] st0] eqn:Hi;
      [|by apply get_index_inv in Hi as [-> _]; simplify_eq].
    pose proof Hi as Hi'. apply get_index_inv in Hi' as [-> _].
    repeat (case_match; simplify_eq/=); try done;
      eexists _, _, _, _; repeat split; eauto.
Qed.

Lemma set_input_impedance_megohm_witness :
  let st := sample_driver false (scripted_instrument [] "" []) in
  let st_dc := (_set_channel_coupling (PInt 0) (PStr "dc") st).2 in
  let run := _set_channel_input_impedance (PInt 0) (PInt 50) st_dc in
  (Py.float (PInt 1000000) = Ok 1000000%float /\
   PrimFloat.eqb 1000000 1000000 = true /\
   get_index (channel_name st) (PStr "CH1") st = (Ok 0%nat, st) /\
   channel_attrs st !! "channel_coupling" = Some (repeat (PStr "ac") 4) /\
   repeat (PStr "ac") 4 !! 0%nat = Some (PStr "ac") /\
   Py.eq_str (PStr "ac") "dc" = false /\
   channel_attrs st !! "channel_input_impedance" = Some (repeat (PInt 1000000) 4) /\
   (0 < length (repeat (PInt 1000000) 4))%nat /\
   exists st',
     _set_channel_input_impedance (PStr "CH1") (PInt 1000000) st = (Ok tt, st') /\
     trace st' = trace st /\
     channel_attrs st' !! "channel_input_impedance"
       = Some (<[0%nat := PFloat 1000000]> (repeat (PInt 1000000) 4)) /\
     _get_cache_valid "channel_input_impedance" (Some 0%nat) st' = (Ok true, st')) /\
  (_set_channel_input_impedance (PInt 0) (PInt 50) st_dc = (run.1, run.2) /\
   trace run.2 <> trace st_dc /\
   exists i couplings coupling command,
     get_index (channel_name st_dc) (PInt 0) st_dc = (Ok i, st_dc) /\
     channel_attrs st_dc !! "channel_coupling" = Some couplings /\
     couplings !! i = Some coupling /\
     Py.eq_str coupling "dc" = true /\
     channel_command_name st_dc !! i = Some command /\
     (trace run.2 = trace st_dc ++ [Write (command +:+ ":CPL DC1M")] \/
      trace run.2 = trace st_dc ++ [Write (command +:+ ":CPL DC50")])).
Proof.
  set (st := sample_driver false (scripted_instrument [] "" [])).
  set (st_dc := (_set_channel_coupling (PInt 0) (PStr "dc") st).2).
  set (run := _set_channel_input_impedance (PInt 0) (PInt 50) st_dc).
  assert (H1 : Py.float (PInt 1000000) = Ok 1000000%float) by (vm_compute; reflexivity).
  assert (H2 : PrimFloat.eqb 1000000 1000000 = true) by reflexivity.
  assert (H3 : get_index (channel_name st) (PStr "CH1") st = (Ok 0%nat, st))
    by reflexivity.
  assert (H4 : channel_attrs st !! "channel_coupling" = Some (repeat (PStr "ac") 4))
    by (vm_compute; reflexivity).
  assert (H5 : repeat (PStr "ac") 4 !! 0%nat = Some (PStr "ac")) by reflexivity.
  assert (H6 : Py.eq_str (PStr "ac") "dc" = false) by reflexivity.
  assert (H7 : channel_attrs st !! "channel_input_impedance"
               = Some (repeat (PInt 1000000) 4)) by (vm_compute; reflexivity).
  assert (H8 : (0 < length (repeat (PInt 1000000) 4))%nat) by (simpl; lia).
  assert (H9 : _set_channel_input_impedance (PInt 0) (PInt 50) st_dc = (run.1, run.2))
    by apply surjective_pairing.
  assert (H10 : trace run.2 <> trace st_dc) by (vm_compute; discriminate).
  split.
  - refine (conj H1 (conj H2 (conj H3 (conj H4 (conj H5 (conj H6 (conj H7 (conj H8 _)))))))).
    exact (proj1 set_input_impedance_megohm st (PStr "CH1") (PInt 1000000) _ 0%nat
             _ _ _ H1 H2 H3 H4 H5 H6 H7 H8).
  - refine (conj H9 (conj H10 _)).
    exact (proj2 set_input_impedance_megohm st_dc (PInt 0) (PInt 50) _ _ H9 H10).
Defined.

(** * Cross-attribute invalidation *)

(** C5: a successful set of the coupling of a channel leaves that channel's
    input impedance entry invalid; a successful set of its probe attenuation
    leaves its probe-attenuation-auto entry invalid; a successful set of
    probe-attenuation-auto leaves its probe attenuation entry invalid; and a
    timebase scale write leaves the timebase range entry invalid. *)
Theorem dependency_invalidation :
  (forall st index value i st',
      get_index (channel_name st) index st = (Ok i, st) ->
      _set_channel_coupling index value st = (Ok tt, st') ->
      _get_cache_valid "channel_input_impedance" (Some i) st' = (Ok false, st')) /\
  (forall st index value i st',
      get_index (channel_name st) index st = (Ok i, st) ->
      _set_channel_probe_attenuation index value st = (Ok tt, st') ->
      _get_cache_valid "channel_probe_attenuation_auto" (Some i) st' = (Ok false, st')) /\
  (forall st index value i st',
      get_index (channel_name st) index st = (Ok i, st) ->
      _set_channel_probe_attenuation_auto index value st = (Ok tt, st') ->
      _get_cache_valid "channel_probe_attenuation" (Some i) st' = (Ok false, st')) /\
  (forall st value st',
      _set_timebase_scale value st = (Ok tt, st') ->
      _get_cache_valid "timebase_range" None st' = (Ok false, st')).
Proof.
  repeat split.
  - intros st index value i st' Hi Hrun.
    unfold _set_channel_coupling in Hrun. run. rewrite Hi in Hrun.
    repeat (case_match; simplify_eq/=);
      rewrite lookup_insert_ne, lookup_insert_eq by done; reflexivity.
  - intros st index value i st' Hi Hrun.
    unfold _set_channel_probe_attenuation in Hrun. run. rewrite Hi in Hrun.
    repeat (case_match; simplify_eq/=);
      rewrite lookup_insert_ne, lookup_insert_eq by done; reflexivity.
  - intros st index value i st' Hi Hrun.
    unfold _set_channel_probe_attenuation_auto in Hrun. run. rewrite Hi in Hrun.
    repeat (case_match; simplify_eq/=);
      rewrite lookup_insert_ne, lookup_insert_eq by done; reflexivity.
  - intros st value st' Hrun.
    unfold _set_timebase_scale in Hrun. run.
    repeat (case_match; simplify_eq/=);
      rewrite lookup_insert_eq; reflexivity.
Qed.

(** An outcome [(r, s)] of running [m] whose second component is the
    final state of [m] itself: only the result is computed. *)
Ltac evaluated :=
  match goal with
  | |- ?m = (?r, ?s) =>
      transitivity (m.1, m.2);
      [ apply surjective_pairing
      | apply (f_equal (fun x => (x, s))); vm_compute; reflexivity ]
  end.

(** A validity flag is read without evaluating the rest of the object. *)
Ltac cache_entry :=
  match goal with
  | |- _get_cache_valid _ _ ?s = (Ok ?b, ?s) =>
      unfold _get_cache_valid;
      apply (f_equal (fun x => (Ok x, s))); vm_compute; reflexivity
  end.

Lemma dependency_invalidation_witness :
  let scope := scripted_instrument
    [("C1:CPL?", "DC1M"); ("C1:PROBE?", "manual,10"); ("TDIV?", "1.0E-03")] "" [] in
  let st0 := sample_driver false scope in
  let st := (_get_timebase_scale
              (_get_channel_probe_attenuation_auto (PStr "CH1")
                 (_get_channel_probe_attenuation (PStr "CH1")
                    (_get_channel_input_impedance (PStr "CH1") st0).2).2).2).2 in
  let st1 := (_set_channel_coupling (PStr "CH1") (PStr "dc") st).2 in
  let st2 := (_set_channel_probe_attenuation (PStr "CH1") (PInt 10) st).2 in
  let st3 := (_set_channel_probe_attenuation_auto (PStr "CH1") (PBool true) st).2 in
  let st4 := (_set_timebase_scale (PFloat 1e-3) st).2 in
  get_index (channel_name st) (PStr "CH1") st = (Ok 0%nat, st) /\
  (_get_cache_valid "channel_input_impedance" (Some 0%nat) st = (Ok true, st) /\
   _set_channel_coupling (PStr "CH1") (PStr "dc") st = (Ok tt, st1) /\
   _get_cache_valid "channel_input_impedance" (Some 0%nat) st1 = (Ok false, st1)) /\
  (_get_cache_valid "channel_probe_attenuation_auto" (Some 0%nat) st = (Ok true, st) /\
   _set_channel_probe_attenuation (PStr "CH1") (PInt 10) st = (Ok tt, st2) /\
   _get_cache_valid "channel_probe_attenuation_auto" (Some 0%nat) st2 = (Ok false, st2)) /\
  (_get_cache_valid "channel_probe_attenuation" (Some 0%nat) st = (Ok true, st) /\
   _set_channel_probe_attenuation_auto (PStr "CH1") (PBool true) st = (Ok tt, st3) /\
   _get_cache_valid "channel_probe_attenuation" (Some 0%nat) st3 = (Ok false, st3)) /\
  (_get_cache_valid "timebase_range" None st = (Ok true, st) /\
   _set_timebase_scale (PFloat 1e-3) st = (Ok tt, st4) /\
   _get_cache_valid "timebase_range" None st4 = (Ok false, st4)).
Proof.
  intros scope st0 st st1 st2 st3 st4.
  assert (Hi : get_index (channel_name st) (PStr "CH1") st = (Ok 0%nat, st)).
  { unfold get_index.
    replace (index_of "CH1" (channel_name st)) with (Some 0%nat)
      by (vm_compute; reflexivity).
    reflexivity. }
  assert (V1 : _get_cache_valid "channel_input_impedance" (Some 0%nat) st = (Ok true, st))
    by cache_entry.
  assert (V2 : _get_cache_valid "channel_probe_attenuation_auto" (Some 0%nat) st
               = (Ok true, st))
    by cache_entry.
  assert (V3 : _get_cache_valid "channel_probe_attenuation" (Some 0%nat) st = (Ok true, st))
    by cache_entry.
  assert (V4 : _get_cache_valid "timebase_range" None st = (Ok true, st))
    by cache_entry.
  assert (H1 : _set_channel_coupling (PStr "CH1") (PStr "dc") st
               = (Ok tt, st1))
    by evaluated.
  assert (H2 : _set_channel_probe_attenuation (PStr "CH1") (PInt 10) st
               = (Ok tt, st2))
    by evaluated.
  assert (H3 : _set_channel_probe_attenuation_auto (PStr "CH1") (PBool true) st
               = (Ok tt, st3))
    by evaluated.
  assert (H4 : _set_timebase_scale (PFloat 1e-3) st
               = (Ok tt, st4))
    by evaluated.
  destruct dependency_invalidation as (D1 & D2 & D3 & D4).
  refine (conj Hi (conj (conj V1 (conj H1 _)) (conj (conj V2 (conj H2 _))
            (conj (conj V3 (conj H3 _)) (conj V4 (conj H4 _)))))).
  - exact (D1 st _ _ _ _ Hi H1).
  - exact (D2 st _ _ _ _ Hi H2).
  - exact (D3 st _ _ _ _ Hi H3).
  - exact (D4 st _ _ H4).
Defined.

(** * Validation *)

Ltac unfold_methods :=
  unfold _set_timebase_mode, _set_timebase_position, _set_timebase_range,
    _set_timebase_scale, _set_display_vectors, _set_acquisition_type,
    _set_acquisition_number_of_points_minimum, _set_acquisition_number_of_averages,
    _set_acquisition_sample_mode, _set_channel_enabled, _set_channel_input_impedance,
    _set_channel_input_frequency_max, _set_channel_probe_attenuation,
    _set_channel_probe_attenuation_auto, _set_channel_bw_limit, _set_channel_coupling,
    _set_channel_offset, _set_channel_range, _set_channel_scale, _set_trigger_coupling,
    _set_trigger_holdoff, _set_trigger_level, _set_trigger_edge_slope,
    _set_trigger_source, _set_trigger_type, _set_trigger_continuous in *.

(** A setter that fails validation has not touched the driver object. *)
Lemma setter_validation_untouched a index value st e st' :
  setter a index value st = (Raise e, st') ->
  validation_error e = true ->
  st' = st.
Proof.
  intros Hrun Hval.
  destruct a; simpl in Hrun; unfold_methods; unfold_methods; run;
    unfold get_index in Hrun; run;
    repeat (case_match; simplify_eq/=); done.
Qed.

Lemma float_of_str_error s e : Py.float (PStr s) = Raise e -> e = ValueError.
Proof.
  unfold Py.float. destruct (PyFloat.of_string s); [discriminate|].
  by intros [= <-].
Qed.

Lemma measurement_value_error reply e :
  measurement_value reply = Raise e -> validation_error e = false.
Proof.
  unfold measurement_value.
  destruct (PyStr.split "," reply) as [|field rest]; [by intros [= <-]|].
  destruct (Py.float (PStr field)) as [x|e'] eqn:Hx; [discriminate|].
  intros [= <-]. by rewrite (float_of_str_error _ _ Hx).
Qed.

(** A fetch that fails validation has not touched the driver object. *)
Lemma fetch_validation_untouched index fn st e st' :
  _measurement_fetch_waveform_measurement index fn st = (Raise e, st') ->
  validation_error e = true ->
  st' = st.
Proof.
  intros Hrun Hval.
  destruct (get_index (channel_name st) index st) as [[i|e0] st0] eqn:Hi.
  - pose proof Hi as Hi'. apply get_index_inv in Hi' as [-> _].
    destruct (in_dict fn MeasurementFunctionMapping) eqn:Hfn.
    + unfold in_dict in Hfn. destruct fn as [| | | |s]; try discriminate.
      destruct (dict_find s MeasurementFunctionMapping) as [code|] eqn:Hcode;
        [|discriminate].
      destruct (driver_operation_simulate st) eqn:Hsim.
      * unfold _measurement_fetch_waveform_measurement in Hrun. run.
        rewrite Hi in Hrun. simpl in Hrun. rewrite Hcode in Hrun. simpl in Hrun.
        rewrite Hsim in Hrun. simpl in Hrun. discriminate.
      * destruct (get_index_lookup _ _ _ _ _ Hi) as [name Hname].
        rewrite (fetch_measurement_run st index s i name code Hsim Hi Hname Hcode)
          in Hrun.
        injection Hrun as Hvalue _.
        apply measurement_value_error in Hvalue. congruence.
    + unfold _measurement_fetch_waveform_measurement in Hrun. run.
      rewrite Hi in Hrun. simpl in Hrun. unfold in_dict in Hfn.
      destruct fn as [| | | |s]; simpl in Hrun; try by simplify_eq.
      destruct (dict_find s MeasurementFunctionMapping); [discriminate|].
      simpl in Hrun. by simplify_eq.
  - pose proof Hi as Hi'. apply get_index_inv in Hi' as [-> _].
    unfold _measurement_fetch_waveform_measurement in Hrun. run.
    rewrite Hi in Hrun. by simplify_eq.
Qed.

Lemma get_index_error names index st e st' :
  get_index names index st = (Raise e, st') -> validation_error e = true.
Proof.
  unfold get_index.
  destruct index as [| |n| |s]; try (by intros [= <- <-]).
  - destruct (andb _ _); [discriminate|]. by intros [= <- <-].
  - destruct (index_of s names); [discriminate|]. by intros [= <- <-].
Qed.

Ltac raised := eexists; split; [|reflexivity]; reflexivity.

(** A value outside the legal domain makes the setter fail validation. *)
Lemma setter_rejects a index value st :
  rejected a st index value ->
  exists e, validation_error e = true /\ setter a index value st = (Raise e, st).
Proof.
  destruct a; simpl; try contradiction.
  - intros Hvalue. unfold _set_timebase_mode. run. rewrite Hvalue. simpl. raised.
  - intros Hvalue. unfold _set_acquisition_type. run. rewrite Hvalue. simpl. raised.
  - intros (n & Hn & Hvalue). unfold _set_acquisition_number_of_averages. run.
    rewrite Hn. simpl. rewrite Hvalue. simpl. raised.
  - intros Hvalue. unfold _set_acquisition_sample_mode. run. rewrite Hvalue. simpl. raised.
  - intros (x & Hx & Hm & Hrest). unfold _set_channel_input_impedance. run.
    rewrite Hx. simpl.
    destruct (get_index (channel_name st) index st) as [[i|e0] st0] eqn:Hi;
      pose proof Hi as Hi'; apply get_index_inv in Hi' as [-> _].
    + rewrite Hm.
      destruct Hrest as [H50|(i' & couplings & coupling & Hi' & Hcs & Hc & Hdc)].
      * rewrite H50. simpl. raised.
      * assert (i' = i) as -> by congruence.
        destruct (PrimFloat.eqb x 50); simpl; [|raised].
        rewrite Hcs, Hc. simpl. rewrite Hdc. simpl. raised.
    + exists e0. split; [by eapply get_index_error|reflexivity].
  - intros (s & -> & Hvalue). unfold _set_channel_bw_limit. run.
    destruct (get_index (channel_name st) index st) as [[i|e0] st0] eqn:Hi;
      pose proof Hi as Hi'; apply get_index_inv in Hi' as [-> _].
    + rewrite Hvalue. simpl. raised.
    + exists e0. split; [by eapply get_index_error|reflexivity].
  - intros Hvalue. unfold _set_channel_coupling. run.
    destruct (get_index (channel_name st) index st) as [[i|e0] st0] eqn:Hi;
      pose proof Hi as Hi'; apply get_index_inv in Hi' as [-> _].
    + rewrite Hvalue. simpl. raised.
    + exists e0. split; [by eapply get_index_error|reflexivity].
  - intros Hvalue. unfold _set_trigger_coupling. run. rewrite Hvalue. simpl. raised.
  - intros Hvalue. unfold _set_trigger_edge_slope. run. rewrite Hvalue. simpl. raised.
  - intros [Hext Hname]. unfold _set_trigger_source. run.
    rewrite Hext, Hname. simpl. raised.
  - intros Hvalue. unfold _set_trigger_type. run. rewrite Hvalue. simpl. raised.
Qed.

Lemma fetch_rejects index fn st :
  in_dict fn MeasurementFunctionMapping = false ->
  exists e, validation_error e = true /\
            _measurement_fetch_waveform_measurement index fn st = (Raise e, st).
Proof.
  intros Hfn. unfold _measurement_fetch_waveform_measurement. run.
  destruct (get_index (channel_name st) index st) as [[i|e0] st0] eqn:Hi;
    pose proof Hi as Hi'; apply get_index_inv in Hi' as [-> _].
  - unfold in_dict in Hfn.
    destruct fn as [| | | |s]; simpl; try raised.
    destruct (dict_find s MeasurementFunctionMapping); [discriminate|].
    simpl. raised.
  - exists e0. split; [by eapply get_index_error|reflexivity].
Qed.

(** C9: a value outside the legal domain of an attribute (an unsupported
    enumeration value, an unsupported average count, an input impedance of
    50 ohms while the cached coupling is not 'dc', an unknown trigger
    source) makes the setter raise a validation error, and an unsupported
    measurement function does the same to the measurement fetch; whenever a
    setter or the fetch raises a validation error the driver object is
    exactly as before the call: no device I/O was recorded, and every cache
    entry and the slot table are unchanged. *)
Theorem validation_before_io :
  (forall a index value st,
      rejected a st index value ->
      exists e, validation_error e = true /\ setter a index value st = (Raise e, st)) /\
  (forall index fn st,
      in_dict fn MeasurementFunctionMapping = false ->
      exists e, validation_error e = true /\
                _measurement_fetch_waveform_measurement index fn st = (Raise e, st)) /\
  (forall a index value st e st',
      setter a index value st = (Raise e, st') ->
      validation_error e = true ->
      st' = st) /\
  (forall index fn st e st',
      _measurement_fetch_waveform_measurement index fn st = (Raise e, st') ->
      validation_error e = true ->
      st' = st).
Proof.
  split; [exact setter_rejects|].
  split; [exact fetch_rejects|].
  split; [exact setter_validation_untouched|exact fetch_validation_untouched].
Qed.

Lemma validation_before_io_witness :
  let st := sample_driver false (scripted_instrument [] "" []) in
  (rejected ChannelInputImpedance st (PStr "CH1") (PInt 50) /\
   exists e, validation_error e = true /\
             setter ChannelInputImpedance (PStr "CH1") (PInt 50) st = (Raise e, st)) /\
  (in_dict (PStr "jitter") MeasurementFunctionMapping = false /\
   exists e, validation_error e = true /\
             _measurement_fetch_waveform_measurement (PStr "CH1") (PStr "jitter") st
             = (Raise e, st)) /\
  (setter AcquisitionNumberOfAverages PNone (PInt 3) st = (Raise OutOfRangeException, st) /\
   validation_error OutOfRangeException = true /\
   st = st) /\
  (_measurement_fetch_waveform_measurement (PStr "CH9") (PStr "period") st
   = (Raise SelectorNameException, st) /\
   validation_error SelectorNameException = true /\
   st = st).
Proof.
  set (st := sample_driver false (scripted_instrument [] "" [])).
  destruct validation_before_io as (V1 & V2 & V3 & V4).
  assert (H1 : rejected ChannelInputImpedance st (PStr "CH1") (PInt 50)).
  { exists 50%float. split; [vm_compute; reflexivity|]. split; [reflexivity|].
    right. exists 0%nat, (repeat (PStr "ac") 4), (PStr "ac").
    split; [reflexivity|]. split; [vm_compute; reflexivity|].
    split; reflexivity. }
  assert (H2 : in_dict (PStr "jitter") MeasurementFunctionMapping = false)
    by reflexivity.
  assert (H3 : setter AcquisitionNumberOfAverages PNone (PInt 3) st
               = (Raise OutOfRangeException, st)) by reflexivity.
  assert (H4 : _measurement_fetch_waveform_measurement (PStr "CH9") (PStr "period") st
               = (Raise SelectorNameException, st)) by reflexivity.
  refine (conj (conj H1 _) (conj (conj H2 _) (conj (conj H3 (conj eq_refl _))
            (conj H4 (conj eq_refl _))))).
  - exact (V1 _ _ _ _ H1).
  - exact (V2 (PStr "CH1") _ st H2).
  - exact (V3 _ _ _ _ _ _ H3 eq_refl).
  - exact (V4 _ _ _ _ _ H4 eq_refl).
Defined.

(** * Reading back a written attribute *)

(** C2, as stated, fails: in simulate mode a timebase scale write followed
    by a read issues no query at all; and a bandwidth limit written as
    [True] reads back as the filter name ['20m']. *)
Lemma set_then_get_not_as_claimed :
  (let st := sample_driver true (scripted_instrument [] "1.0E-03" []) in
   let st1 := (_set_timebase_scale (PFloat 1e-3) st).2 in
   let st2 := (_get_timebase_scale st1).2 in
   queries (trace st2) <> (queries (trace st1) + 1)%nat) /\
  (let st := sample_driver false (scripted_instrument [] "" []) in
   let st1 := (setter ChannelBwLimit (PInt 0) (PBool true) st).2 in
   (setter ChannelBwLimit (PInt 0) (PBool true) st).1 = Ok tt /\
   (getter ChannelBwLimit (PInt 0) st1).1 <> Ok (PBool true)).
Proof.
  split; [vm_compute; discriminate|].
  split; [vm_compute; reflexivity|vm_compute; discriminate].
Qed.

Ltac unfold_getters :=
  unfold _get_timebase_mode, _get_timebase_position, _get_timebase_range,
    _get_timebase_scale, _get_display_vectors, _get_acquisition_type,
    _get_acquisition_number_of_points_minimum, _get_acquisition_number_of_averages,
    _get_acquisition_sample_mode, _get_channel_enabled, _get_channel_input_impedance,
    _get_channel_input_frequency_max, _get_channel_probe_attenuation,
    _get_channel_probe_attenuation_auto, _get_channel_bw_limit, _get_channel_coupling,
    _get_channel_offset, _get_channel_range, _get_channel_scale, _get_trigger_coupling,
    _get_trigger_holdoff, _get_trigger_level, _get_trigger_edge_slope,
    _get_trigger_source, _get_trigger_type, _get_trigger_continuous in *.

Lemma get_index_anywhere names index st i :
  get_index names index st = (Ok i, st) ->
  forall st', get_index names index st' = (Ok i, st').
Proof. intros H st'. by eapply get_index_state. Qed.

Ltac use_equations :=
  repeat match goal with
         | H : ?x = _ |- context [?x] => rewrite H
         end.

Ltac eval_get :=
  repeat (progress (rewrite ?lookup_insert_eq, ?andb_false_r,
                      ?list_lookup_insert_eq by done; simpl)).

Ltac read_back :=
  eexists; split;
  [ simpl; use_equations; reflexivity
  | eval_get; reflexivity ].

Ltac global_case Hset :=
  unfold_methods; run;
  repeat (case_match; simplify_eq/=);
  unfold_getters; run; read_back.

(** A per-channel setter that succeeds has resolved its selector in the list
    of channel names, which is where the getter resolves it. *)
Ltac channel_case st index Hset :=
  let i := fresh "i" in
  let e := fresh "e" in
  let st0 := fresh "st0" in
  let Hn := fresh "Hn" in
  let Hn' := fresh "Hn'" in
  let Hbound := fresh "Hbound" in
  destruct (get_index (channel_name st) index st) as [[i|e] st0] eqn:Hn;
  pose proof Hn as Hn'; apply get_index_inv in Hn' as [-> Hbound];
  [ specialize (Hbound _ eq_refl)
  | exfalso; unfold_methods; run; rewrite ?Hn in Hset; simpl in Hset;
    solve [ repeat (case_match; simplify_eq/=); discriminate ] ];
  unfold_methods; run;
  repeat (progress (rewrite ?Hn, ?(get_index_nat _ _ _ Hbound) in Hset;
                    simpl in Hset));
  repeat (case_match; simplify_eq/=);
  unfold_getters; run;
  rewrite (get_index_anywhere _ _ _ _ Hn); simpl;
  read_back.

(** A value written through a setter that keeps it is read back from
    memory, with the driver object untouched by the read. *)
Lemma set_then_get_kept a index value st st1 :
  keeps_written_value a = true ->
  (a = ChannelEnabled ->
   get_index (channel_name st) index st
   = get_index (channel_command_name st) index st) ->
  setter a index value st = (Ok tt, st1) ->
  exists v, kept_value a value = Some v /\ getter a index st1 = (Ok v, st1).
Proof.
  intros Hkeep Hidx Hset.
  destruct a; try discriminate Hkeep; simpl in Hidx, Hset |- *.
  - global_case Hset.
  - global_case Hset.
  - global_case Hset.
  - global_case Hset.
  - global_case Hset.
  - global_case Hset.
  - global_case Hset.
  - specialize (Hidx eq_refl).
    destruct (get_index (channel_name st) index st) as [[i|e] st0] eqn:Hn;
      pose proof Hn as Hn'; apply get_index_inv in Hn' as [-> Hbound];
      symmetry in Hidx;
      unfold _set_channel_enabled in Hset; run; rewrite Hidx in Hset;
      simpl in Hset; [|discriminate].
    repeat (case_match; simplify_eq/=);
      unfold _get_channel_enabled; run;
      rewrite (get_index_anywhere _ _ _ _ Hn); simpl;
      read_back.
  - channel_case st index Hset.
  - channel_case st index Hset.
  - channel_case st index Hset.
  - channel_case st index Hset.
  - channel_case st index Hset.
  - channel_case st index Hset.
  - channel_case st index Hset.
  - global_case Hset.
  - global_case Hset.
  - global_case Hset.
  - global_case Hset.
  - global_case Hset.
  - global_case Hset.
  - global_case Hset.
Qed.

(** After a scale write in non-simulate mode the next read of the scale
    queries the instrument exactly once. *)
Lemma timebase_scale_set_then_get st value st1 :
  driver_operation_simulate st = false ->
  _set_timebase_scale value st = (Ok tt, st1) ->
  exists reply, trace (_get_timebase_scale st1).2 = trace st1 ++ [Ask "TDIV?" reply].
Proof.
  intros Hsim Hset. unfold _set_timebase_scale in Hset. run.
  rewrite Hsim in Hset. simpl in Hset.
  repeat (case_match; simplify_eq/=).
  unfold _get_timebase_scale. run. rewrite Hsim. simpl.
  rewrite lookup_insert_ne, lookup_insert_eq by done. simpl.
  eexists. repeat (case_match; simplify_eq/=); reflexivity.
Qed.

Lemma channel_scale_set_then_get st index value st1 :
  driver_operation_simulate st = false ->
  _set_channel_scale index value st = (Ok tt, st1) ->
  exists i command reply,
    get_index (channel_name st) index st = (Ok i, st) /\
    channel_command_name st !! i = Some command /\
    trace (_get_channel_scale index st1).2
    = trace st1 ++ [Ask (command +:+ ":VDIV?") reply].
Proof.
  intros Hsim Hset. unfold _set_channel_scale in Hset. run.
  destruct (get_index (channel_name st) index st) as [[i|e] st0] eqn:Hn;
    pose proof Hn as Hn'; apply get_index_inv in Hn' as [-> _];
    simpl in Hset; [|discriminate].
  destruct (Py.float value) as [x|e]; simpl in Hset; [|discriminate].
  rewrite Hsim in Hset. simpl in Hset.
  destruct (channel_command_name st !! i) as [command|] eqn:Hcommand;
    simpl in Hset; [|discriminate].
  injection Hset as <-.
  exists i, command. eexists. split; [reflexivity|]. split; [exact Hcommand|].
  unfold _get_channel_scale. run.
  rewrite (get_index_anywhere _ _ _ _ Hn). simpl. rewrite Hsim. simpl.
  rewrite lookup_insert_ne, lookup_insert_eq by done. simpl.
  rewrite Hcommand. simpl.
  repeat (case_match; simplify_eq/=); reflexivity.
Qed.

(** In simulate mode a scale write followed by a read of the scale leaves
    the instrument alone. *)
Lemma timebase_scale_set_then_get_simulated st value st1 :
  driver_operation_simulate st = true ->
  _set_timebase_scale value st = (Ok tt, st1) ->
  (_get_timebase_scale st1).2 = st1.
Proof.
  intros Hsim Hset. unfold _set_timebase_scale in Hset. run.
  rewrite Hsim in Hset. simpl in Hset.
  repeat (case_match; simplify_eq/=).
  unfold _get_timebase_scale. run. rewrite Hsim. simpl.
  by case_match.
Qed.

Lemma channel_scale_set_then_get_simulated st index value st1 :
  driver_operation_simulate st = true ->
  _set_channel_scale index value st = (Ok tt, st1) ->
  (_get_channel_scale index st1).2 = st1.
Proof.
  intros Hsim Hset. unfold _set_channel_scale in Hset. run.
  destruct (get_index (channel_name st) index st) as [[i|e] st0] eqn:Hn;
    pose proof Hn as Hn'; apply get_index_inv in Hn' as [-> _];
    simpl in Hset; [|discriminate].
  rewrite Hsim in Hset. simpl in Hset.
  repeat (case_match; simplify_eq/=).
  unfold _get_channel_scale. run.
  rewrite (get_index_anywhere _ _ _ _ Hn). simpl. rewrite Hsim. simpl.
  by repeat case_match.
Qed.

(** C2, amended: for every attribute whose setter keeps the written value
    (all but the scales and the ranges), a successful set(x) followed by
    get() on the same attribute and channel returns, without touching the
    driver object or the instrument, the value the setter kept: x itself,
    converted by float, int, bool or str where the setter converts, with a
    boolean bandwidth limit kept as the filter name and the external
    trigger source as 'EXT10'; the setter of probe-attenuation-auto keeps
    the mode word it sends, 'auto' or 'manual', and that word is what is
    read back.  The selector of the enabled flag is resolved in the list of
    command names by the setter and in the list of channel names by the
    getter, and has to resolve alike in both.  In non-simulate mode a
    successful set(x) of the timebase scale or of a channel scale followed
    by get() issues exactly one query, whatever x is, while in simulate mode
    the get leaves the driver object and the instrument alone. *)
Theorem set_then_get :
  (forall a index value st st1,
      keeps_written_value a = true ->
      (a = ChannelEnabled ->
       get_index (channel_name st) index st
       = get_index (channel_command_name st) index st) ->
      setter a index value st = (Ok tt, st1) ->
      exists v, kept_value a value = Some v /\ getter a index st1 = (Ok v, st1)) /\
  (forall st value st1,
      driver_operation_simulate st = false ->
      setter TimebaseScale PNone value st = (Ok tt, st1) ->
      exists reply,
        trace (getter TimebaseScale PNone st1).2 = trace st1 ++ [Ask "TDIV?" reply]) /\
  (forall st index value st1,
      driver_operation_simulate st = false ->
      setter ChannelScale index value st = (Ok tt, st1) ->
      exists i command reply,
        get_index (channel_name st) index st = (Ok i, st) /\
        channel_command_name st !! i = Some command /\
        trace (getter ChannelScale index st1).2
        = trace st1 ++ [Ask (command +:+ ":VDIV?") reply]) /\
  (forall st index value st1,
      driver_operation_simulate st = true ->
      (setter TimebaseScale index value st = (Ok tt, st1) ->
       (getter TimebaseScale index st1).2 = st1) /\
      (setter ChannelScale index value st = (Ok tt, st1) ->
       (getter ChannelScale index st1).2 = st1)).
Proof.
  split; [exact set_then_get_kept|].
  split; [exact timebase_scale_set_then_get|].
  split; [exact channel_scale_set_then_get|].
  intros st index value st1 Hsim. split.
  - by apply timebase_scale_set_then_get_simulated.
  - by apply channel_scale_set_then_get_simulated.
Qed.

Lemma set_then_get_witness :
  let st := sample_driver false (scripted_instrument [] "2.0E-03" []) in
  let st1 := (setter ChannelEnabled (PInt 1) (PInt 1) st).2 in
  let st2 := (setter TimebaseScale PNone (PFloat 1e-3) st).2 in
  let st3 := (setter ChannelScale (PStr "CH2") (PFloat 0.5) st).2 in
  let st4 := (setter ChannelProbeAttenuation (PStr "CH2") (PFloat 2.5) st).2 in
  let st5 := (setter ChannelProbeAttenuationAuto (PStr "CH2") (PBool false) st).2 in
  let sim := sample_driver true (scripted_instrument [] "2.0E-03" []) in
  let sim1 := (setter TimebaseScale PNone (PFloat 1e-3) sim).2 in
  (keeps_written_value ChannelEnabled = true /\
   (ChannelEnabled = ChannelEnabled ->
    get_index (channel_name st) (PInt 1) st
    = get_index (channel_command_name st) (PInt 1) st) /\
   setter ChannelEnabled (PInt 1) (PInt 1) st = (Ok tt, st1) /\
   exists v, kept_value ChannelEnabled (PInt 1) = Some v /\
             getter ChannelEnabled (PInt 1) st1 = (Ok v, st1)) /\
  (keeps_written_value ChannelProbeAttenuation = true /\
   setter ChannelProbeAttenuation (PStr "CH2") (PFloat 2.5) st = (Ok tt, st4) /\
   exists v, kept_value ChannelProbeAttenuation (PFloat 2.5) = Some v /\
             getter ChannelProbeAttenuation (PStr "CH2") st4 = (Ok v, st4)) /\
  (keeps_written_value ChannelProbeAttenuationAuto = true /\
   setter ChannelProbeAttenuationAuto (PStr "CH2") (PBool false) st = (Ok tt, st5) /\
   exists v, kept_value ChannelProbeAttenuationAuto (PBool false) = Some v /\
             getter ChannelProbeAttenuationAuto (PStr "CH2") st5 = (Ok v, st5)) /\
  (driver_operation_simulate st = false /\
   setter TimebaseScale PNone (PFloat 1e-3) st = (Ok tt, st2) /\
   exists reply,
     trace (getter TimebaseScale PNone st2).2 = trace st2 ++ [Ask "TDIV?" reply]) /\
  (setter ChannelScale (PStr "CH2") (PFloat 0.5) st = (Ok tt, st3) /\
   exists i command reply,
     get_index (channel_name st) (PStr "CH2") st = (Ok i, st) /\
     channel_command_name st !! i = Some command /\
     trace (getter ChannelScale (PStr "CH2") st3).2
     = trace st3 ++ [Ask (command +:+ ":VDIV?") reply]) /\
  (driver_operation_simulate sim = true /\
   setter TimebaseScale PNone (PFloat 1e-3) sim = (Ok tt, sim1) /\
   (getter TimebaseScale PNone sim1).2 = sim1).
Proof.
  set (st := sample_driver false (scripted_instrument [] "2.0E-03" [])).
  set (sim := sample_driver true (scripted_instrument [] "2.0E-03" [])).
  destruct set_then_get as (G1 & G2 & G3 & G4).
  assert (Hsim' : driver_operation_simulate sim = true) by reflexivity.
  assert (H4 : setter TimebaseScale PNone (PFloat 1e-3) sim
               = (Ok tt, (setter TimebaseScale PNone (PFloat 1e-3) sim).2))
    by evaluated.
  assert (Hsim : driver_operation_simulate st = false) by reflexivity.
  assert (Hk : keeps_written_value ChannelEnabled = true) by reflexivity.
  assert (Hidx : ChannelEnabled = ChannelEnabled ->
    get_index (channel_name st) (PInt 1) st
    = get_index (channel_command_name st) (PInt 1) st)
    by (intros _; reflexivity).
  assert (H1 : setter ChannelEnabled (PInt 1) (PInt 1) st
               = (Ok tt, (setter ChannelEnabled (PInt 1) (PInt 1) st).2))
    by evaluated.
  assert (Hk' : keeps_written_value ChannelProbeAttenuation = true) by reflexivity.
  assert (Hidx' : ChannelProbeAttenuation = ChannelEnabled ->
    get_index (channel_name st) (PStr "CH2") st
    = get_index (channel_command_name st) (PStr "CH2") st)
    by (intros E; discriminate E).
  assert (H5 : setter ChannelProbeAttenuation (PStr "CH2") (PFloat 2.5) st
               = (Ok tt, (setter ChannelProbeAttenuation (PStr "CH2") (PFloat 2.5) st).2))
    by evaluated.
  assert (Hk'' : keeps_written_value ChannelProbeAttenuationAuto = true) by reflexivity.
  assert (Hidx'' : ChannelProbeAttenuationAuto = ChannelEnabled ->
    get_index (channel_name st) (PStr "CH2") st
    = get_index (channel_command_name st) (PStr "CH2") st)
    by (intros E; discriminate E).
  assert (H6 : setter ChannelProbeAttenuationAuto (PStr "CH2") (PBool false) st
               = (Ok tt, (setter ChannelProbeAttenuationAuto (PStr "CH2") (PBool false) st).2))
    by evaluated.
  assert (H2 : setter TimebaseScale PNone (PFloat 1e-3) st
               = (Ok tt, (setter TimebaseScale PNone (PFloat 1e-3) st).2))
    by evaluated.
  assert (H3 : setter ChannelScale (PStr "CH2") (PFloat 0.5) st
               = (Ok tt, (setter ChannelScale (PStr "CH2") (PFloat 0.5) st).2))
    by evaluated.
  refine (conj (conj Hk (conj Hidx (conj H1 _)))
            (conj (conj Hk' (conj H5 _))
               (conj (conj Hk'' (conj H6 _))
                  (conj (conj Hsim (conj H2 _))
                     (conj (conj H3 _) (conj Hsim' (conj H4 _))))))).
  - exact (G1 _ _ _ _ _ Hk Hidx H1).
  - exact (G1 _ _ _ _ _ Hk' Hidx' H5).
  - exact (G1 _ _ _ _ _ Hk'' Hidx'' H6).
  - exact (G2 _ _ _ Hsim H2).
  - exact (G3 _ _ _ _ Hsim H3).
  - exact (proj1 (G4 _ _ _ _ Hsim') H4).
Defined.

(** * Timebase range *)

(** A refresh of the timebase scale stores the reply as the scale and the
    product with the number of horizontal divisions, rounded to six
    decimals, as the range, and marks both entries valid. *)
Lemma get_timebase_scale_refresh st scale product :
  driver_operation_simulate st = false ->
  _get_cache_valid "timebase_scale" None st = (Ok false, st) ->
  Py.float (PStr (ask_reply (device st) (trace st) "TDIV?")) = Ok scale ->
  Py.mul_float scale (PInt (horizontal_divisions st)) = Ok product ->
  let st' := (_get_timebase_scale st).2 in
  attrs st' !! "timebase_scale" = Some (PFloat scale) /\
  attrs st' !! "timebase_range" = Some (PFloat (PyFloat.round product 6)) /\
  _get_cache_valid "timebase_scale" None st' = (Ok true, st') /\
  _get_cache_valid "timebase_range" None st' = (Ok true, st').
Proof.
  intros Hsim Hvalid Hscale Hproduct.
  unfold _get_timebase_scale. run. rewrite Hsim. simpl.
  injection Hvalid as ->. simpl. rewrite Hscale. simpl. rewrite Hproduct. simpl.
  rewrite lookup_insert_ne, lookup_insert_eq by done. simpl.
  rewrite (lookup_insert_ne _ "timebase_range" "timebase_scale") by done.
  rewrite !lookup_insert_eq.
  rewrite (lookup_insert_ne _ ("timebase_range", None) ("timebase_scale", None)) by done.
  rewrite !lookup_insert_eq.
  done.
Qed.

(** C4 on the code: with the instrument at 20 ns per division a read of the
    timebase scale leaves both cache entries valid, the scale at 2e-08 and
    the range at 0.0, while ten times the scale is 2e-07. *)
Theorem timebase_range_rounded_away :
  let st0 := __init__ false (scripted_instrument [("TDIV?", "2.0E-08")] "" []) in
  let st := (_get_timebase_scale st0).2 in
  horizontal_divisions st = 10 /\
  _get_cache_valid "timebase_scale" None st = (Ok true, st) /\
  _get_cache_valid "timebase_range" None st = (Ok true, st) /\
  attrs st !! "timebase_scale" = Some (PFloat 2e-8) /\
  attrs st !! "timebase_range" = Some (PFloat 0) /\
  Py.mul_float 2e-8 (PInt 10) = Ok 2e-7%float /\
  PrimFloat.eqb 0 2e-7 = false.
Proof. vm_compute. repeat split; reflexivity. Qed.

(** * Decoding a waveform *)

Section Decoder.

Local Arguments Nat.add : simpl never.
Local Arguments Nat.mul : simpl never.

Lemma for_range_map {A : Type} (f : nat -> result A) (g : nat -> A) (indices : list nat) :
  (forall k, In k indices -> f k = Ok (g k)) ->
  for_range f indices = Ok (map g indices).
Proof.
  induction indices as [|k indices IH]; intros Hf; simpl.
  - reflexivity.
  - rewrite (Hf k) by (by left).
    rewrite IH; [reflexivity|].
    intros k' Hk'. apply Hf. by right.
Qed.

Lemma float_of_small_int n :
  Z.abs n < PyFloat.overflow_threshold -> Py.float (PInt n) = Ok (float_of_int n).
Proof.
  intros Hn. unfold Py.float, PyFloat.of_Z.
  by rewrite (proj2 (Z.ltb_lt _ _) Hn).
Qed.

Lemma byte_bound (b : byte) : 0 <= Z.of_N (Byte.to_N b) <= 255.
Proof. pose proof (Byte.to_N_bounded b). lia. Qed.

Lemma overflow_threshold_large : 65536 < PyFloat.overflow_threshold.
Proof. reflexivity. Qed.

Lemma unpack_word_big_endian raw i word :
  big_endian_word raw (2 * i) = Some word -> unpack_word raw i = Ok word.
Proof.
  unfold big_endian_word, unpack_word.
  replace (i * 2)%nat with (2 * i)%nat by lia.
  destruct (raw !! (2 * i)%nat) as [hi|] eqn:Hhi; [|discriminate].
  destruct (raw !! S (2 * i)) as [lo|] eqn:Hlo; [|discriminate].
  intros [= <-].
  rewrite <- (take_drop (2 * i) raw) in Hhi, Hlo.
  assert (Hlen : length (take (2 * i) raw) = (2 * i)%nat).
  { apply length_take_le. apply lookup_lt_Some in Hhi.
    rewrite take_drop in Hhi. by apply Nat.lt_le_incl. }
  rewrite lookup_app_r in Hhi, Hlo by lia.
  rewrite Hlen in Hhi, Hlo.
  replace (2 * i - 2 * i)%nat with 0%nat in Hhi by lia.
  replace (S (2 * i) - 2 * i)%nat with 1%nat in Hlo by lia.
  change (skipn (2 * i) raw) with (drop (2 * i) raw).
  destruct (drop (2 * i) raw) as [|b0 [|b1 rest]]; simpl in *; try discriminate.
  by simplify_eq.
Qed.

Lemma big_endian_word_bound raw offset word :
  big_endian_word raw offset = Some word -> 0 <= word < 65536.
Proof.
  unfold big_endian_word.
  destruct (raw !! offset) as [hi|]; [|discriminate].
  destruct (raw !! S offset) as [lo|]; [|discriminate].
  intros [= <-]. pose proof (byte_bound hi). pose proof (byte_bound lo). lia.
Qed.

Lemma big_endian_word_defined raw i :
  (2 * i + 2 <= length raw)%nat -> exists word, big_endian_word raw (2 * i) = Some word.
Proof.
  intros Hlen. unfold big_endian_word.
  destruct (lookup_lt_is_Some_2 raw (2 * i)) as [hi ->]; [lia|].
  destruct (lookup_lt_is_Some_2 raw (S (2 * i))) as [lo ->]; [lia|].
  by eauto.
Qed.

(** One sample of the loop, for an index and a block that hold it. *)
Lemma waveform_point_decodes xincrement xorigin yincrement yorigin raw i word :
  Z.of_nat i < PyFloat.overflow_threshold ->
  big_endian_word raw (2 * i) = Some word ->
  waveform_point xincrement xorigin yincrement yorigin raw i
  = Ok ((float_of_int (Z.of_nat i) * xincrement + xorigin)%float,
        (float_of_int word * yincrement + yorigin)%float).
Proof.
  intros Hi Hword. unfold waveform_point.
  rewrite float_of_small_int by lia.
  rewrite (unpack_word_big_endian _ _ _ Hword).
  pose proof (big_endian_word_bound _ _ _ Hword).
  pose proof overflow_threshold_large.
  rewrite float_of_small_int by lia.
  reflexivity.
Qed.

(** A successful read of the probe attenuation can be repeated: the second
    read returns the same value and changes nothing. *)
Lemma get_probe_attenuation_again index st v st' :
  _get_channel_probe_attenuation index st = (Ok v, st') ->
  _get_channel_probe_attenuation index st' = (Ok v, st').
Proof.
  intros Hrun. pose proof Hrun as Hcopy.
  unfold _get_channel_probe_attenuation in Hrun. run.
  destruct (get_index (channel_name st) index st) as [[i|e] st0] eqn:Hn;
    pose proof Hn as Hn'; apply get_index_inv in Hn' as [-> _];
    simpl in Hrun; [|discriminate].
  destruct (negb (driver_operation_simulate st) &&
            negb (default false (cache_valid st !! ("channel_probe_attenuation", Some i))))
    eqn:Hquery; simpl in Hrun.
  - repeat (case_match; simplify_eq/=).
    unfold _get_channel_probe_attenuation. run.
    rewrite (get_index_anywhere _ _ _ _ Hn). simpl.
    rewrite lookup_insert_eq. simpl. rewrite andb_false_r. simpl.
    use_equations. reflexivity.
  - repeat (case_match; simplify_eq/=). exact Hcopy.
Qed.


(** C3: in non-simulate mode, with a preamble whose fields parse and a
    block that holds the announced samples, the decoder takes the point
    count from field 2+4*C+5, the horizontal increment and the time per
    division from field 2+4*C+2, the trigger delay from field 2+4*C+3, the
    vertical increment and origin of channel i from fields 2+4*i+2 and
    2+4*i+3, each divided by the probe attenuation of the channel, takes
    x_origin = -(time_per_division * horizontal_divisions / 2 +
    trigger_delay), and returns exactly point_count pairs in index order,
    pair k being (k * x_increment + x_origin, raw_k * y_increment +
    y_origin) with raw_k the big-endian unsigned 16-bit integer at byte
    offset 2*k of the block. *)
Theorem fetch_waveform_decodes st index i name
    fpoints points fx xincrement fdelay trigdelay product
    fyinc yinc fyorg yorg attenuation st3 yincrement yorigin :
  driver_operation_simulate st = false ->
  get_index (channel_name st) index st = (Ok i, st) ->
  channel_name st !! i = Some name ->
  let count := channel_count st in
  let st1 := transfer_selected name st in
  let reply := ask_reply (device st) (trace st1) "DTINF?" in
  let pre := PyStr.split "," reply in
  preamble_field pre (2 + 4 * count + 5) = Ok fpoints ->
  Py.int (PStr fpoints) = Ok points ->
  preamble_field pre (2 + 4 * count + 2) = Ok fx ->
  _suffixed_string_to_float (PyStr.rstrip "s" fx) = Ok xincrement ->
  preamble_field pre (2 + 4 * count + 3) = Ok fdelay ->
  _suffixed_string_to_float (PyStr.rstrip "s" fdelay) = Ok trigdelay ->
  Py.mul_float xincrement (PInt (horizontal_divisions st)) = Ok product ->
  preamble_field pre (2 + 4 * i + 2) = Ok fyinc ->
  _suffixed_string_to_float (PyStr.rstrip "V" fyinc) = Ok yinc ->
  preamble_field pre (2 + 4 * i + 3) = Ok fyorg ->
  _suffixed_string_to_float (PyStr.rstrip "V" fyorg) = Ok yorg ->
  _get_channel_probe_attenuation (PInt (Z.of_nat i)) (with_event (Ask "DTINF?" reply) st1)
  = (Ok attenuation, st3) ->
  Py.truediv (PFloat yinc) attenuation = Ok yincrement ->
  Py.truediv (PFloat yorg) attenuation = Ok yorigin ->
  let raw := block_reply (device st3) (trace st3 ++ [Write "DTWAVE?"]) in
  points < PyFloat.overflow_threshold ->
  2 * points <= Z.of_nat (length raw) ->
  let xorigin := (- (product / 2 + trigdelay))%float in
  exists data st',
    _measurement_fetch_waveform index st = (Ok data, st') /\
    length data = Z.to_nat points /\
    forall k, (k < Z.to_nat points)%nat ->
      exists word,
        big_endian_word raw (2 * k) = Some word /\
        data !! k = Some ((float_of_int (Z.of_nat k) * xincrement + xorigin)%float,
                          (float_of_int word * yincrement + yorigin)%float).
Proof.
  intros Hsim Hi Hname count st1 reply pre Hfpoints Hpoints Hfx Hx Hfdelay Hdelay
    Hproduct Hfyinc Hyinc Hfyorg Hyorg Hatt Hyincrement Hyorigin raw Hsmall Hlen xorigin.
  subst count st1 reply pre raw xorigin. unfold transfer_selected in *.
  unfold _measurement_fetch_waveform. run.
  rewrite Hi. simpl. rewrite Hsim. simpl. rewrite Hname. simpl.
  rewrite Hfpoints. simpl. rewrite Hpoints. simpl.
  rewrite Hfx. simpl. rewrite Hx. simpl.
  rewrite Hfdelay. simpl. rewrite Hdelay. simpl.
  rewrite Hproduct. simpl.
  rewrite Hfyinc. simpl. rewrite Hyinc. simpl.
  rewrite Hfyorg. simpl. rewrite Hyorg. simpl.
  rewrite Hatt. simpl. rewrite Hyincrement. simpl.
  rewrite (get_probe_attenuation_again _ _ _ _ Hatt). simpl.
  rewrite Hyorigin. simpl.
  set (raw := block_reply (device st3) (trace st3 ++ [Write "DTWAVE?"])) in *.
  set (xorigin := (- (product / 2 + trigdelay))%float).
  pose (g := fun k : nat =>
    ((float_of_int (Z.of_nat k) * xincrement + xorigin)%float,
     (float_of_int (default 0%Z (big_endian_word raw (2 * k))) * yincrement
      + yorigin)%float)).
  assert (Hpoint : forall k, (k < Z.to_nat points)%nat ->
    exists word, big_endian_word raw (2 * k) = Some word /\
      waveform_point xincrement xorigin yincrement yorigin raw k = Ok (g k)).
  { intros k Hk.
    destruct (big_endian_word_defined raw k) as [word Hword]; [lia|].
    exists word. split; [exact Hword|].
    rewrite (waveform_point_decodes _ _ _ _ _ _ word) by (lia || exact Hword).
    unfold g. by rewrite Hword. }
  exists (map g (seq 0 (Z.to_nat points))). eexists.
  split; [|split].
  - rewrite (for_range_map _ g); [reflexivity|].
    intros k Hk. apply in_seq in Hk.
    destruct (Hpoint k) as (word & _ & Hg); [lia|exact Hg].
  - by rewrite length_map, length_seq.
  - intros k Hk. destruct (Hpoint k Hk) as (word & Hword & _).
    exists word. split; [exact Hword|].
    change (map g (seq 0 (Z.to_nat points))) with (g <$> seq 0 (Z.to_nat points)).
    rewrite list_lookup_fmap, lookup_seq_lt by exact Hk. simpl.
    rewrite Nat.add_0_l. unfold g. by rewrite Hword.
Qed.


Lemma fetch_waveform_decodes_witness :
  let st := sample_driver false sample_scope in
  let st1 := transfer_selected "CH1" st in
  let pre := PyStr.split "," (ask_reply (device st) (trace st1) "DTINF?") in
  let st2 := with_event (Ask "DTINF?" (ask_reply (device st) (trace st1) "DTINF?")) st1 in
  let st3 := (_get_channel_probe_attenuation (PInt 0) st2).2 in
  let raw := block_reply (device st3) (trace st3 ++ [Write "DTWAVE?"]) in
  (driver_operation_simulate st = false /\
   get_index (channel_name st) (PStr "CH1") st = (Ok 0%nat, st) /\
   channel_name st !! 0%nat = Some "CH1" /\
   preamble_field pre (2 + 4 * channel_count st + 5) = Ok "2" /\
   Py.int (PStr "2") = Ok 2 /\
   preamble_field pre (2 + 4 * channel_count st + 2) = Ok "1us" /\
   _suffixed_string_to_float (PyStr.rstrip "s" "1us") = Ok 1e-6%float /\
   preamble_field pre (2 + 4 * channel_count st + 3) = Ok "0s" /\
   _suffixed_string_to_float (PyStr.rstrip "s" "0s") = Ok 0%float /\
   Py.mul_float 1e-6 (PInt (horizontal_divisions st)) = Ok 9.9999999999999991e-06%float /\
   preamble_field pre (2 + 4 * 0 + 2) = Ok "2mV" /\
   _suffixed_string_to_float (PyStr.rstrip "V" "2mV") = Ok 0.002%float /\
   preamble_field pre (2 + 4 * 0 + 3) = Ok "-1V" /\
   _suffixed_string_to_float (PyStr.rstrip "V" "-1V") = Ok (-1)%float /\
   _get_channel_probe_attenuation (PInt (Z.of_nat 0)) st2 = (Ok (PInt 10), st3) /\
   Py.truediv (PFloat 0.002) (PInt 10) = Ok 0.0002%float /\
   Py.truediv (PFloat (-1)) (PInt 10) = Ok (-0.1)%float /\
   2 < PyFloat.overflow_threshold /\
   2 * 2 <= Z.of_nat (length raw)) /\
  exists data st',
    _measurement_fetch_waveform (PStr "CH1") st = (Ok data, st') /\
    length data = Z.to_nat 2 /\
    forall k, (k < Z.to_nat 2)%nat ->
      exists word,
        big_endian_word raw (2 * k) = Some word /\
        data !! k
        = Some ((float_of_int (Z.of_nat k) * 1e-6
                 + - (9.9999999999999991e-06 / 2 + 0))%float,
                (float_of_int word * 0.0002 + -0.1)%float).
Proof.
  set (st := sample_driver false sample_scope).
  set (st1 := transfer_selected "CH1" st).
  set (pre := PyStr.split "," (ask_reply (device st) (trace st1) "DTINF?")).
  set (st2 := with_event (Ask "DTINF?" (ask_reply (device st) (trace st1) "DTINF?")) st1).
  set (st3 := (_get_channel_probe_attenuation (PInt 0) st2).2).
  set (raw := block_reply (device st3) (trace st3 ++ [Write "DTWAVE?"])).
  assert (H1 : driver_operation_simulate st = false) by reflexivity.
  assert (H2 : get_index (channel_name st) (PStr "CH1") st = (Ok 0%nat, st))
    by reflexivity.
  assert (H3 : channel_name st !! 0%nat = Some "CH1") by reflexivity.
  assert (H4 : preamble_field pre (2 + 4 * channel_count st + 5) = Ok "2")
    by (vm_compute; reflexivity).
  assert (H5 : Py.int (PStr "2") = Ok 2) by (vm_compute; reflexivity).
  assert (H6 : preamble_field pre (2 + 4 * channel_count st + 2) = Ok "1us")
    by (vm_compute; reflexivity).
  assert (H7 : _suffixed_string_to_float (PyStr.rstrip "s" "1us") = Ok 1e-6%float)
    by (vm_compute; reflexivity).
  assert (H8 : preamble_field pre (2 + 4 * channel_count st + 3) = Ok "0s")
    by (vm_compute; reflexivity).
  assert (H9 : _suffixed_string_to_float (PyStr.rstrip "s" "0s") = Ok 0%float)
    by (vm_compute; reflexivity).
  assert (H10 : Py.mul_float 1e-6 (PInt (horizontal_divisions st))
                = Ok 9.9999999999999991e-06%float) by (vm_compute; reflexivity).
  assert (H11 : preamble_field pre (2 + 4 * 0 + 2) = Ok "2mV")
    by (vm_compute; reflexivity).
  assert (H12 : _suffixed_string_to_float (PyStr.rstrip "V" "2mV") = Ok 0.002%float)
    by (vm_compute; reflexivity).
  assert (H13 : preamble_field pre (2 + 4 * 0 + 3) = Ok "-1V")
    by (vm_compute; reflexivity).
  assert (H14 : _suffixed_string_to_float (PyStr.rstrip "V" "-1V") = Ok (-1)%float)
    by (vm_compute; reflexivity).
  assert (H15 : _get_channel_probe_attenuation (PInt (Z.of_nat 0)) st2
                = (Ok (PInt 10), st3)) by (vm_compute; reflexivity).
  assert (H16 : Py.truediv (PFloat 0.002) (PInt 10) = Ok 0.0002%float)
    by (vm_compute; reflexivity).
  assert (H17 : Py.truediv (PFloat (-1)) (PInt 10) = Ok (-0.1)%float)
    by (vm_compute; reflexivity).
  assert (H18 : 2 < PyFloat.overflow_threshold) by reflexivity.
  assert (H19 : 2 * 2 <= Z.of_nat (length raw)) by (vm_compute; discriminate).
  split.
  - exact (conj H1 (conj H2 (conj H3 (conj H4 (conj H5 (conj H6 (conj H7 (conj H8
             (conj H9 (conj H10 (conj H11 (conj H12 (conj H13 (conj H14 (conj H15
             (conj H16 (conj H17 (conj H18 H19)))))))))))))))))).
  - exact (fetch_waveform_decodes st (PStr "CH1") 0%nat "CH1" "2" 2 "1us" 1e-6%float
             "0s" 0%float 9.9999999999999991e-06%float "2mV" 0.002%float "-1V" (-1)%float
             (PInt 10) st3 0.0002%float (-0.1)%float
             H1 H2 H3 H4 H5 H6 H7 H8 H9 H10 H11 H12 H13 H14 H15 H16 H17 H18 H19).
Defined.

End Decoder.
